(** * IoT weather forecasting: gateway, training pipeline and dashboard

    A shallow embedding of the Python sources

      - [src/gateway/mqtt_gateway.py]   (module [Gateway])
      - [src/ml/train_model.py]         (module [Train])
      - [src/ml/model_predict.py]       (module [Predict])
      - [src/dashboard/app_streamlit.py] (module [Dashboard])

    Python statements that touch the file system or the console are
    functions in a state-and-exception monad [M] over a [world]; library
    calls whose result the sources do not determine (UTF-8 and JSON
    decoding, pandas' text-to-number and text-to-time coercions, the
    seeded shuffle, the least-squares fit, its predictions and their
    error in floating point, the row order of a sort) are section
    variables.  numpy's default sort, which [sort_values] runs, is
    written out in module [np]. *)

From Stdlib Require Import QArith Qabs.
From stdpp Require Import gmap strings list sorting.

Set Warnings "-register-all".
Close Scope Q_scope.
Open Scope string_scope.
Open Scope list_scope.
Open Scope nat_scope.

(** ** Python values *)

(** The values that flow through the program: what [json.loads] returns,
    what a CSV cell holds, and what pandas puts into a column.  [PNone]
    stands for [None] and for the missing values [NaN] and [NaT]. *)
Inductive pyval :=
  | PNone
  | PBool (b : bool)
  | PNum (q : Q)
  | PStr (s : string)
  | PTimestamp (t : Z)
  | PList (l : list pyval)
  | PDict (d : gmap string pyval).

(** [pd.isna] on a cell. *)
Definition isna (c : pyval) : bool :=
  match c with PNone => true | _ => false end.

(** ** Exceptions and the execution monad *)

Inductive message :=
  | CsvColumnMismatch (expected : list string) (found : list pyval)
  | NotEnoughData (collected : nat)
  | LengthMismatch
  | MixedTimezones.

Inductive exn :=
  | UnicodeDecodeError
  | JSONDecodeError
  | AttributeError
  | OSError
  | FileNotFoundError
  | EmptyDataError
  | IndexError
  | KeyError (key : string)
  | ValueError (msg : message).

Inductive res (A : Type) :=
  | Ret (a : A)
  | Raise (e : exn).
Arguments Ret {A} a.
Arguments Raise {A} e.

#[global] Instance res_ret : MRet res := fun A a => Ret a.
#[global] Instance res_bind : MBind res := fun A B f r =>
  match r with Ret a => f a | Raise e => Raise e end.
#[global] Instance res_fmap : FMap res := fun A B f r =>
  match r with Ret a => Ret (f a) | Raise e => Raise e end.

(** [try: body except: handler] for computations without side effects. *)
Definition res_try {A} (body handler : res A) : res A :=
  match body with Ret a => Ret a | Raise _ => handler end.

(** A linear model as [sklearn.linear_model.LinearRegression] stores it
    after [fit], and as [joblib.dump] persists it. *)
Record LinearRegression := {
  coef_ : list Q;
  intercept_ : Q
}.

(** ** DataFrames and CSV files *)

(** A frame is its column labels and its rows of cells, by position. *)
Record DataFrame := {
  columns : list pyval;
  rows : list (list pyval)
}.

(** A CSV file is its lines of cells; [read_csv] takes the first line as
    the header. *)
Definition csv := list (list pyval).

(** A record as the gateway builds it: a dict literal, keys in the order
    written. *)
Definition record := list (string * pyval).

(** What a process prints. *)
Inductive console :=
  | Stored (r : record)
  | ErrorProcessingMessage (e : exn)
  | ModelTrainedAndSaved
  | MeanAbsoluteError (mae : Q)
  | BaselineNote.

(** The part of the machine the program reads and writes:
    [data/raw], [data/raw/weather_data.csv], [data/models],
    [data/models/temperature_model.joblib] and the standard output. *)
Record world := {
  data_dir : bool;
  data_file : option csv;
  model_dir : bool;
  model_file : option LinearRegression;
  stdout : list console
}.

Definition M (A : Type) : Type := world -> world * res A.

#[global] Instance M_ret : MRet M := fun A a w => (w, Ret a).
#[global] Instance M_bind : MBind M := fun A B f m w =>
  match m w with
  | (w', Ret a) => f a w'
  | (w', Raise e) => (w', Raise e)
  end.

#[global] Instance M_fmap : FMap M := fun A B f m w =>
  match m w with
  | (w', Ret a) => (w', Ret (f a))
  | (w', Raise e) => (w', Raise e)
  end.

Definition raise {A} (e : exn) : M A := fun w => (w, Raise e).

(** [try: body except Exception as e: handler e]. *)
Definition try_except {A} (body : M A) (handler : exn -> M A) : M A := fun w =>
  match body w with
  | (w', Ret a) => (w', Ret a)
  | (w', Raise e) => handler e w'
  end.

(** A pure computation that may raise, run inside [M]. *)
Definition lift {A} (r : res A) : M A := fun w => (w, r).

Definition print (line : console) : M unit := fun w =>
  ({| data_dir := data_dir w; data_file := data_file w;
      model_dir := model_dir w; model_file := model_file w;
      stdout := stdout w ++ [line] |}, Ret tt).

(** ** pandas *)

Module pd.

(** [pd.DataFrame(columns=names)]. *)
Definition DataFrame_columns (names : list string) : DataFrame :=
  {| columns := PStr <$> names; rows := [] |}.

(** [pd.DataFrame([r])] for one dict [r]. *)
Definition DataFrame_record (r : record) : DataFrame :=
  {| columns := (PStr ∘ fst) <$> r; rows := [snd <$> r] |}.

(** The lines [to_csv(..., header=h, index=False)] emits. *)
Definition csv_lines (df : DataFrame) (header : bool) : csv :=
  (if header then [columns df] else []) ++ rows df.

Definition set_data_file (f : option csv) (w : world) : world :=
  {| data_dir := data_dir w; data_file := f;
     model_dir := model_dir w; model_file := model_file w;
     stdout := stdout w |}.

(** [df.to_csv(DATA_FILE, index=False)]: truncate and write.  pandas
    raises [OSError] when the parent directory does not exist. *)
Definition to_csv (df : DataFrame) : M unit := fun w =>
  if data_dir w
  then (set_data_file (Some (csv_lines df true)) w, Ret tt)
  else (w, Raise OSError).

(** [df.to_csv(DATA_FILE, mode="a", header=h, index=False)]. *)
Definition to_csv_append (df : DataFrame) (header : bool) : M unit := fun w =>
  if data_dir w
  then (set_data_file
          (Some (default [] (data_file w) ++ csv_lines df header)) w, Ret tt)
  else (w, Raise OSError).

(** [pd.read_csv(DATA_FILE)]. *)
Definition read_csv : M DataFrame := fun w =>
  match data_file w with
  | None => (w, Raise FileNotFoundError)
  | Some [] => (w, Raise EmptyDataError)
  | Some (h :: ls) => (w, Ret {| columns := h; rows := ls |})
  end.

(** A column label is the name [name]. *)
Definition is_label (name : string) (c : pyval) : bool :=
  match c with PStr s => String.eqb s name | _ => false end.

Fixpoint index_of (name : string) (cols : list pyval) : option nat :=
  match cols with
  | [] => None
  | c :: cs => if is_label name c then Some 0 else S <$> index_of name cs
  end.

(** The cell of row [r] at position [i]; a short row reads as missing. *)
Definition cell (r : list pyval) (i : nat) : pyval := default PNone (r !! i).

(** [df[name] = f(df[name])] for an element-wise [f]; [KeyError] when
    the column is absent. *)
Definition map_column (name : string) (f : pyval -> pyval) (df : DataFrame)
  : res DataFrame :=
  match index_of name (columns df) with
  | None => Raise (KeyError name)
  | Some i =>
      Ret {| columns := columns df;
             rows := (fun r => <[i := f (cell r i)]> r) <$> rows df |}
  end.

(** [df[name] = values] for an existing column; pandas raises
    [ValueError] when there is not one value per row. *)
Definition assign_column (name : string) (values : list pyval) (df : DataFrame)
  : res DataFrame :=
  match index_of name (columns df) with
  | None => Raise (KeyError name)
  | Some i =>
      if length values =? length (rows df)
      then Ret {| columns := columns df;
                  rows := zip_with (fun r v => <[i := v]> r) (rows df) values |}
      else Raise (ValueError LengthMismatch)
  end.

(** A row has a value in column [name]. *)
Definition notna_at (cols : list pyval) (name : string) (r : list pyval) : bool :=
  match index_of name cols with
  | None => false
  | Some i => negb (isna (cell r i))
  end.

(** [df.dropna(subset=names)]; [KeyError] on an absent column. *)
Definition dropna (names : list string) (df : DataFrame) : res DataFrame :=
  match list_find (fun n => index_of n (columns df) = None) names with
  | Some (_, n) => Raise (KeyError n)
  | None =>
      Ret {| columns := columns df;
             rows := filter (fun r => forallb (fun n => notna_at (columns df) n r) names = true)
                            (rows df) |}
  end.

(** [df[name]] as a list of cells. *)
Definition column (name : string) (df : DataFrame) : res (list pyval) :=
  match index_of name (columns df) with
  | None => Raise (KeyError name)
  | Some i => Ret ((fun r => cell r i) <$> rows df)
  end.

End pd.

(** ** File-system helpers ([pathlib]) *)

(** [DATA_DIR.mkdir(parents=True, exist_ok=True)]. *)
Definition mkdir_data_dir : M unit := fun w =>
  ({| data_dir := true; data_file := data_file w;
      model_dir := model_dir w; model_file := model_file w;
      stdout := stdout w |}, Ret tt).

(** [MODEL_DIR.mkdir(parents=True, exist_ok=True)]. *)
Definition mkdir_model_dir : M unit := fun w =>
  ({| data_dir := data_dir w; data_file := data_file w;
      model_dir := true; model_file := model_file w;
      stdout := stdout w |}, Ret tt).

(** [DATA_FILE.exists()]. *)
Definition data_file_exists : M bool := fun w =>
  (w, Ret (bool_decide (is_Some (data_file w)))).

(** [data.get(key, dflt)]: a dict lookup; any other value has no [get]. *)
Definition py_get (data : pyval) (key : string) (dflt : pyval) : res pyval :=
  match data with
  | PDict d => Ret (default dflt (d !! key))
  | _ => Raise AttributeError
  end.

(** The columns of the durable store, in file order. *)
Definition SCHEMA : list string :=
  ["timestamp"; "temperature"; "humidity"; "pressure"; "wind_speed";
   "rainfall"; "location"].

(** ** [src/gateway/mqtt_gateway.py] *)

Module Gateway.
Section Gateway.

(** [bytes.decode("utf-8")]; [None] is [UnicodeDecodeError]. *)
Variable utf8_decode : list Byte.byte -> option string.
(** [json.loads]; [None] is [JSONDecodeError]. *)
Variable json_loads : string -> option pyval.

Definition decode (payload : list Byte.byte) : res string :=
  match utf8_decode payload with
  | Some s => Ret s
  | None => Raise UnicodeDecodeError
  end.

Definition loads (s : string) : res pyval :=
  match json_loads s with
  | Some v => Ret v
  | None => Raise JSONDecodeError
  end.

Definition ensure_data_file : M unit :=
  mkdir_data_dir ;;
  present ← data_file_exists;
  if negb present
  then pd.to_csv (pd.DataFrame_columns SCHEMA)
  else mret tt.

(** Lines 45-57 of [on_message]: decode the payload and build the
    record; [now] is what [datetime.utcnow().isoformat()] returns at
    this call. *)
Definition make_record (now : string) (msg_payload : list Byte.byte)
  : res record :=
  payload ← decode msg_payload;
  data ← loads payload;
  timestamp ← py_get data "timestamp" (PStr now);
  temperature ← py_get data "temperature" PNone;
  humidity ← py_get data "humidity" PNone;
  pressure ← py_get data "pressure" PNone;
  wind_speed ← py_get data "wind_speed" PNone;
  rainfall ← py_get data "rainfall" PNone;
  location ← py_get data "location" (PStr "unknown");
  mret [("timestamp", timestamp); ("temperature", temperature);
        ("humidity", humidity); ("pressure", pressure);
        ("wind_speed", wind_speed); ("rainfall", rainfall);
        ("location", location)].

(** The body of the [try] in [on_message]. *)
Definition on_message_body (now : string) (msg_payload : list Byte.byte)
  : M unit :=
  record ← lift (make_record now msg_payload);
  let df := pd.DataFrame_record record in
  present ← data_file_exists;
  pd.to_csv_append df (negb present) ;;
  print (Stored record).

Definition on_message (now : string) (msg_payload : list Byte.byte) : M unit :=
  try_except (on_message_body now msg_payload)
             (fun e => print (ErrorProcessingMessage e)).

End Gateway.
End Gateway.

(** ** [src/ml/train_model.py] *)

Module Train.

Definition FEATURES : list string :=
  ["humidity"; "pressure"; "wind_speed"; "rainfall"].
Definition TARGET : string := "temperature".

(** [{"timestamp", TARGET, *FEATURES, "device_id"}]. *)
Definition expected_columns : list string :=
  ["timestamp"; TARGET] ++ FEATURES ++ ["device_id"].

(** [names.issubset(cols)]. *)
Definition issubset (names : list string) (cols : list pyval) : bool :=
  forallb (fun n => existsb (pd.is_label n) cols) names.

(** The number a coerced cell holds. *)
Definition as_float (c : pyval) : Q :=
  match c with PNum q => q | _ => (0 # 1)%Q end.

(** The two partitions a run trains and evaluates on. *)
Record partitions := {
  X_train : list (list Q);
  X_test : list (list Q);
  y_train : list Q;
  y_test : list Q
}.

Section Train.

(** [pd.to_numeric(errors="coerce")] on one cell; [None] is [NaN]. *)
Variable to_numeric : pyval -> option Q.
(** [train_test_split(X, y, test_size=.., random_state=..)] with an
    integer seed. *)
Variable train_test_split :
  list (list Q) -> list Q -> Q -> Z -> partitions.
(** [LinearRegression().fit(X, y)]. *)
Variable fit : list (list Q) -> list Q -> LinearRegression.
(** [model.predict(X)], in the library's float64 arithmetic. *)
Variable predict : LinearRegression -> list (list Q) -> list Q.
(** [mean_absolute_error(y_true, y_pred)], in float64 as well. *)
Variable mean_absolute_error : list Q -> list Q -> Q.

Definition coerce (c : pyval) : pyval :=
  match to_numeric c with Some q => PNum q | None => PNone end.

(** [for col in cols: df[col] = pd.to_numeric(df[col], errors="coerce")]. *)
Fixpoint coerce_columns (cols : list string) (df : DataFrame) : res DataFrame :=
  match cols with
  | [] => Ret df
  | col :: cols' =>
      match pd.map_column col coerce df with
      | Ret df' => coerce_columns cols' df'
      | Raise e => Raise e
      end
  end.

(** [df[FEATURES]] as a matrix of numbers; [main] reads it after the
    column validation, so the four columns are there. *)
Definition features (df : DataFrame) : list (list Q) :=
  (fun r => (fun n => as_float (pd.cell r (default 0 (pd.index_of n (columns df)))))
              <$> FEATURES) <$> rows df.

(** [df[TARGET]] as a vector of numbers, read after the column
    validation as well. *)
Definition target (df : DataFrame) : list Q :=
  (fun r => as_float (pd.cell r (default 0 (pd.index_of TARGET (columns df)))))
    <$> rows df.

(** Step 8 of [main]. *)
Definition split (df : DataFrame) : partitions :=
  let X := features df in
  let y := target df in
  if length (rows df) <? 10
  then {| X_train := X; X_test := X; y_train := y; y_test := y |}
  else train_test_split X y (1 # 5)%Q 42.

(** [joblib.dump(model, MODEL_PATH)]. *)
Definition joblib_dump (model : LinearRegression) : M unit := fun w =>
  if model_dir w
  then ({| data_dir := data_dir w; data_file := data_file w;
           model_dir := model_dir w; model_file := Some model;
           stdout := stdout w |}, Ret tt)
  else (w, Raise FileNotFoundError).

Definition main : M unit :=
  present ← data_file_exists;
  if negb present then raise FileNotFoundError else
  mkdir_model_dir ;;
  df ← pd.read_csv;
  if negb (issubset expected_columns (columns df))
  then raise (ValueError (CsvColumnMismatch expected_columns (columns df)))
  else
  df ← lift (coerce_columns (FEATURES ++ [TARGET]) df);
  df ← lift (pd.dropna (FEATURES ++ [TARGET]) df);
  if length (rows df) <? 5
  then raise (ValueError (NotEnoughData (length (rows df))))
  else
  let p := split df in
  let model := fit (X_train p) (y_train p) in
  let y_pred := predict model (X_test p) in
  let mae := mean_absolute_error (y_test p) y_pred in
  joblib_dump model ;;
  print ModelTrainedAndSaved ;;
  print (MeanAbsoluteError mae) ;;
  print BaselineNote.

End Train.
End Train.

(** ** [src/ml/model_predict.py] *)

Module Predict.

Record TemperaturePredictor := { model : LinearRegression }.

Section Predict.

(** [model.predict(X)], in the library's float64 arithmetic. *)
Variable predict : LinearRegression -> list (list Q) -> list Q.

(** [TemperaturePredictor()]. *)
Definition init : M TemperaturePredictor := fun w =>
  match model_file w with
  | None => (w, Raise FileNotFoundError)
  | Some m => (w, Ret {| model := m |})
  end.

(** [float(self.model.predict(df)[0])] for the one-row frame [df]. *)
Definition predict_temp (self : TemperaturePredictor)
    (humidity pressure wind_speed rainfall : Q) : res Q :=
  match predict (model self) [[humidity; pressure; wind_speed; rainfall]] with
  | pred :: _ => Ret pred
  | [] => Raise IndexError
  end.

End Predict.
End Predict.

(** ** [src/dashboard/app_streamlit.py] *)

Module Dashboard.

(** [lst[-n:]]. *)
Definition slice_last {A} (n : nat) (lst : list A) : list A :=
  drop (length lst - n) lst.

(** Lines 90-91 of [on_mqtt_message]: append, then keep the last five. *)
Definition buffer_push (payload : pyval) (mqtt_buffer : list pyval) : list pyval :=
  slice_last 5 (mqtt_buffer ++ [payload]).

(** What [subprocess.run(..., capture_output=True, text=True)] returns. *)
Record CompletedProcess := {
  returncode : Z;
  proc_stdout : list console;
  proc_stderr : option exn
}.

(** The Streamlit calls of the retrain branch. *)
Inductive st :=
  | st_success (body : string)
  | st_error (body : string)
  | st_text (body : list console)
  | st_rerun.

(** What one pass of the realtime loop serves. *)
Inductive view :=
  | WaitingForData
  | Serving (latest : list pyval) (predictor : option Predict.TemperaturePredictor).

(** [df.empty]. *)
Definition empty (df : DataFrame) : bool :=
  match rows df, columns df with
  | [], _ => true
  | _, [] => true
  | _, _ => false
  end.

(** The sort key of a timestamp cell. *)
Definition ts_of (c : pyval) : Z :=
  match c with PTimestamp t => t | _ => 0%Z end.

(** Run a script as a child process: it shares the file system, prints
    to a pipe of its own, and exits with 1 on an uncaught exception. *)
Definition subprocess_run (script : M unit) : M CompletedProcess := fun w =>
  let '(w', r) := script {| data_dir := data_dir w; data_file := data_file w;
                            model_dir := model_dir w; model_file := model_file w;
                            stdout := [] |} in
  ({| data_dir := data_dir w'; data_file := data_file w';
      model_dir := model_dir w'; model_file := model_file w';
      stdout := stdout w |},
   Ret {| returncode := match r with Ret _ => 0%Z | Raise _ => 1%Z end;
          proc_stdout := stdout w';
          proc_stderr := match r with Ret _ => None | Raise e => Some e end |}).

Section Dashboard.

Variable utf8_decode : list Byte.byte -> option string.
Variable json_loads : string -> option pyval.
(** [pd.to_datetime(column, errors="coerce")]: the call works on the
    column as a whole (it settles on one format and one time zone for
    all cells) and can raise; in its result [None] is [NaT]. *)
Variable to_datetime : list pyval -> res (list (option Z)).
(** The row order [df.sort_values(col)] produces with its default
    [kind="quicksort"], for the rows and their keys. *)
Variable sort_rows : (list pyval -> Z) -> list (list pyval) -> list (list pyval).
Variable to_numeric : pyval -> option Q.
Variable train_test_split :
  list (list Q) -> list Q -> Q -> Z -> Train.partitions.
Variable fit : list (list Q) -> list Q -> LinearRegression.
Variable predict : LinearRegression -> list (list Q) -> list Q.
Variable mean_absolute_error : list Q -> list Q -> Q.

Definition coerce_datetime (col : list pyval) : res (list pyval) :=
  match to_datetime col with
  | Ret times =>
      Ret ((fun o => match o with Some t => PTimestamp t | None => PNone end)
             <$> times)
  | Raise e => Raise e
  end.

Definition load_data : M DataFrame :=
  present ← data_file_exists;
  if negb present
  then mret (pd.DataFrame_columns
               ["timestamp"; "temperature"; "humidity";
                "pressure"; "wind_speed"; "rainfall"; "location"])
  else
  df ← pd.read_csv;
  timestamp ← lift (pd.column "timestamp" df);
  timestamp ← lift (coerce_datetime timestamp);
  df ← lift (pd.assign_column "timestamp" timestamp df);
  df ← lift (pd.dropna ["timestamp"] df);
  mret df.

(** The branch of [st.button("Train on new data")]. *)
Definition train_button : M (list st) :=
  result ← subprocess_run
             (Train.main to_numeric train_test_split fit predict mean_absolute_error);
  mret [st_success "Model retrained successfully!";
        st_text (proc_stdout result);
        st_rerun].

(** [msg.payload.decode()]. *)
Definition decode (payload : list Byte.byte) : res string :=
  match utf8_decode payload with
  | Some s => Ret s
  | None => Raise UnicodeDecodeError
  end.

Definition loads (s : string) : res pyval :=
  match json_loads s with
  | Some v => Ret v
  | None => Raise JSONDecodeError
  end.

(** [on_mqtt_message], as a function of the global [mqtt_buffer]. *)
Definition on_mqtt_message (msg_payload : list Byte.byte)
    (mqtt_buffer : list pyval) : list pyval * res unit :=
  match res_try (decode msg_payload ≫= loads)
                (PStr <$> decode msg_payload) with
  | Ret payload => (buffer_push payload mqtt_buffer, Ret tt)
  | Raise e => (mqtt_buffer, Raise e)
  end.

(** [df.sort_values(name)]. *)
Definition sort_values (name : string) (df : DataFrame) : res DataFrame :=
  match pd.index_of name (columns df) with
  | None => Raise (KeyError name)
  | Some i =>
      Ret {| columns := columns df;
             rows := sort_rows (fun r => ts_of (pd.cell r i)) (rows df) |}
  end.

(** [df.iloc[-1]]. *)
Definition iloc_last (df : DataFrame) : res (list pyval) :=
  match last (rows df) with
  | Some r => Ret r
  | None => Raise IndexError
  end.

(** One pass of the [while True] loop, up to the choice of [latest]
    (lines 107-121). *)
Definition poll : M view :=
  df ← load_data;
  predictor ← try_except (Some <$> Predict.init) (fun _ => mret None);
  if empty df
  then mret WaitingForData
  else
  df ← lift (sort_values "timestamp" df);
  latest ← lift (iloc_last df);
  mret (Serving latest predictor).

End Dashboard.
End Dashboard.

(** ** Reference definitions for the properties below *)

(** A store file as the gateway writes it: the schema header, then rows
    of seven cells. *)
Definition store_file (f : csv) : Prop :=
  exists body, f = (PStr <$> SCHEMA) :: body /\ Forall (fun r => length r = 7) body.

(** Every line after the header has one cell per column. *)
Definition rectangular (f : csv) : Prop :=
  match f with
  | [] => True
  | h :: body => Forall (fun r => length r = length h) body
  end.


(** Insertion sort by an integer key.  With [strict = false] a row goes
    before the rows of equal key already placed, which keeps rows of
    equal key in their original order (a stable sort); with
    [strict = true] it goes after them, which reverses them. *)
Fixpoint insert_by {A} (strict : bool) (key : A -> Z) (x : A) (l : list A) : list A :=
  match l with
  | [] => [x]
  | y :: l' =>
      if (if strict then key x <? key y else key x <=? key y)%Z
      then x :: y :: l'
      else y :: insert_by strict key x l'
  end.

Definition isort_by {A} (strict : bool) (key : A -> Z) (l : list A) : list A :=
  foldr (insert_by strict key) [] l.

(** The stable ascending sort the specification names. *)
Definition stable_sort_by {A} (key : A -> Z) (l : list A) : list A :=
  isort_by false key l.

(** What [df.sort_values] guarantees for every [kind]: an ascending
    rearrangement of the rows. *)
Definition sorts (sort_rows : (list pyval -> Z) -> list (list pyval) -> list (list pyval))
  : Prop :=
  forall key l, sort_rows key l ≡ₚ l /\ Sorted (fun a b => (key a <= key b)%Z) (sort_rows key l).

(** The timestamp column of the body of a store file. *)
Definition timestamps (body : csv) : list pyval :=
  (fun r => pd.cell r 0) <$> body.

(** The rows [load_data] keeps from the body of a store file when
    [pd.to_datetime] gave [times] for its timestamp column: those whose
    time is not [NaT], in file order, with the time in place of the
    text. *)
Definition kept_rows (times : list (option Z)) (body : csv) : list (list pyval) :=
  omap (fun '(r, o) => match o with
                       | Some t => Some (<[0 := PTimestamp t]> r)
                       | None => None
                       end)
       (zip body times).


(** A row of a training file is valid: its four features and its
    target coerce to numbers. *)
Definition valid_row (to_numeric : pyval -> option Q) (header r : list pyval) : bool :=
  forallb (fun n => match pd.index_of n header with
                    | Some i => bool_decide (is_Some (to_numeric (pd.cell r i)))
                    | None => false
                    end)
          (Train.FEATURES ++ [Train.TARGET]).

(** The frame [main] trains on: the valid rows, their feature and
    target cells coerced. *)
Definition coerce_at (to_numeric : pyval -> option Q) (header r : list pyval) (n : string)
  : list pyval :=
  match pd.index_of n header with
  | Some i => <[i := Train.coerce to_numeric (pd.cell r i)]> r
  | None => r
  end.

Definition coerce_row (to_numeric : pyval -> option Q) (header r : list pyval) : list pyval :=
  foldl (coerce_at to_numeric header) r (Train.FEATURES ++ [Train.TARGET]).

Definition cleaned (to_numeric : pyval -> option Q) (header : list pyval) (body : csv)
  : DataFrame :=
  {| columns := header;
     rows := coerce_row to_numeric header
               <$> filter (fun r => valid_row to_numeric header r = true) body |}.

(** The world after [MODEL_DIR.mkdir]. *)
Definition with_model_dir (w : world) : world :=
  {| data_dir := data_dir w; data_file := data_file w;
     model_dir := true; model_file := model_file w;
     stdout := stdout w |}.

(** The world after a successful run of [Train.main]: the model is
    dumped and the three report lines are printed. *)
Definition trained_world (model : LinearRegression) (mae : Q) (w : world) : world :=
  {| data_dir := data_dir w; data_file := data_file w;
     model_dir := true; model_file := Some model;
     stdout := stdout w ++ [ModelTrainedAndSaved; MeanAbsoluteError mae; BaselineNote] |}.

(** ** numpy's default sort

    [df.sort_values("timestamp")] asks numpy for the positions that
    sort the column, [values.argsort(kind="quicksort")].  For a column
    of times that is numpy's [aquicksort_] (npysort/quicksort.cpp): a
    quicksort on positions with a median of three as pivot, insertion
    sort for segments of at most seventeen positions, and heap sort
    once the partitions nest deeper than twice the bit length of the
    size. *)

Module np.

Definition SMALL_QUICKSORT : nat := 16.

(** [npy_get_msb]. *)
Definition get_msb (num : nat) : Z := Z.log2 (Z.of_nat num).

Section argsort.

(** The values; [tosort] holds positions into them. *)
Variable v : list Z.

(** [v[*p]] for the slot [p] of [tosort]. *)
Definition deref (tosort : list nat) (p : nat) : Z :=
  default 0%Z (tosort !! p ≫= fun i => v !! i).

(** [INTP_SWAP] on the slots [p] and [q]. *)
Definition INTP_SWAP (p q : nat) (tosort : list nat) : list nat :=
  match tosort !! p, tosort !! q with
  | Some a, Some b => <[q := a]> (<[p := b]> tosort)
  | _, _ => tosort
  end.

(** [do { ++pi; } while (v[*pi] < vp)]. *)
Fixpoint scan_up (fuel : nat) (tosort : list nat) (vp : Z) (pi : nat) : nat :=
  match fuel with
  | 0 => S pi
  | S fuel =>
      if (deref tosort (S pi) <? vp)%Z
      then scan_up fuel tosort vp (S pi)
      else S pi
  end.

(** [do { --pj; } while (vp < v[*pj])]. *)
Fixpoint scan_down (fuel : nat) (tosort : list nat) (vp : Z) (pj : nat) : nat :=
  match fuel with
  | 0 => pred pj
  | S fuel =>
      if (vp <? deref tosort (pred pj))%Z
      then scan_down fuel tosort vp (pred pj)
      else pred pj
  end.

(** The [for (;;)] loop of the partition; returns the slots and [pi]. *)
Fixpoint partition_loop (fuel : nat) (tosort : list nat) (vp : Z) (pi pj : nat)
  : list nat * nat :=
  let pi := scan_up (length tosort) tosort vp pi in
  let pj := scan_down (length tosort) tosort vp pj in
  match fuel with
  | 0 => (tosort, pi)
  | S fuel =>
      if pj <=? pi then (tosort, pi)
      else partition_loop fuel (INTP_SWAP pi pj tosort) vp pi pj
  end.

(** One partition of the slots [pl..pr]: the median of the first, the
    middle and the last value is the pivot and is parked at [pr - 1]. *)
Definition partition (pl pr : nat) (tosort : list nat) : list nat * nat :=
  let pm := pl + (pr - pl) / 2 in
  let tosort := if (deref tosort pm <? deref tosort pl)%Z
                then INTP_SWAP pm pl tosort else tosort in
  let tosort := if (deref tosort pr <? deref tosort pm)%Z
                then INTP_SWAP pr pm tosort else tosort in
  let tosort := if (deref tosort pm <? deref tosort pl)%Z
                then INTP_SWAP pm pl tosort else tosort in
  let vp := deref tosort pm in
  let tosort := INTP_SWAP pm (pr - 1) tosort in
  let '(tosort, pi) := partition_loop (length tosort) tosort vp pl (pr - 1) in
  (INTP_SWAP pi (pr - 1) tosort, pi).

(** [while (pj > pl && vp < v[*pk]) { *pj-- = *pk--; } *pj = vi;]. *)
Fixpoint shift (fuel : nat) (pl vi : nat) (vp : Z) (pj : nat) (tosort : list nat)
  : list nat :=
  match fuel with
  | 0 => <[pj := vi]> tosort
  | S fuel =>
      if (pl <? pj) && (vp <? deref tosort (pj - 1))%Z
      then shift fuel pl vi vp (pj - 1)
             (<[pj := default 0 (tosort !! (pj - 1))]> tosort)
      else <[pj := vi]> tosort
  end.

(** The insertion sort of the slots [pl..pr]. *)
Definition insertion_sort (pl pr : nat) (tosort : list nat) : list nat :=
  foldl (fun tosort pi =>
           match tosort !! pi with
           | Some vi => shift pi pl vi (default 0%Z (v !! vi)) pi tosort
           | None => tosort
           end)
        tosort (seq (pl + 1) (pr - pl)).

(** The sift loop of [aheapsort_] on the heap [a[1..n]], where [a[k]]
    is the slot [pl + k - 1]: [for (i, j; j <= n;) ...; a[i] = tmp]. *)
Fixpoint sift (fuel : nat) (pl n tmp i j : nat) (tosort : list nat) : list nat :=
  match fuel with
  | 0 => <[pl + i - 1 := tmp]> tosort
  | S fuel =>
      if n <? j then <[pl + i - 1 := tmp]> tosort
      else
        let j := if (j <? n) && (deref tosort (pl + j - 1) <? deref tosort (pl + j))%Z
                 then j + 1 else j in
        if (default 0%Z (v !! tmp) <? deref tosort (pl + j - 1))%Z
        then sift fuel pl n tmp j (j + j)
               (<[pl + i - 1 := default 0 (tosort !! (pl + j - 1))]> tosort)
        else <[pl + i - 1 := tmp]> tosort
  end.

(** [aheapsort_] on the [n] slots from [pl]. *)
Definition aheapsort (pl n : nat) (tosort : list nat) : list nat :=
  let heap :=
    foldl (fun tosort l =>
             match tosort !! (pl + l - 1) with
             | Some tmp => sift n pl n tmp l (l + l) tosort
             | None => tosort
             end)
          tosort (reverse (seq 1 (n / 2))) in
  foldl (fun tosort n =>
           match tosort !! (pl + n - 1), tosort !! pl with
           | Some tmp, Some top =>
               sift n pl (n - 1) tmp 1 2 (<[pl + n - 1 := top]> tosort)
           | _, _ => tosort
           end)
        heap (reverse (seq 2 (n - 1))).

(** [while ((pr - pl) > SMALL_QUICKSORT)]: partition, push the larger
    part with the depth left, go on with the smaller part. *)
Fixpoint partitions (fuel : nat) (pl pr : nat) (cdepth : Z)
    (stack : list (nat * nat * Z)) (tosort : list nat)
  : nat * nat * list (nat * nat * Z) * list nat :=
  match fuel with
  | 0 => (pl, pr, stack, tosort)
  | S fuel =>
      if SMALL_QUICKSORT <? pr - pl
      then
        let '(tosort, pi) := partition pl pr tosort in
        let cdepth := (cdepth - 1)%Z in
        if pi - pl <? pr - pi
        then partitions fuel pl (pi - 1) cdepth ((pi + 1, pr, cdepth) :: stack) tosort
        else partitions fuel (pi + 1) pr cdepth ((pl, pi - 1, cdepth) :: stack) tosort
      else (pl, pr, stack, tosort)
  end.

(** The [while (1)] loop of [aquicksort_]. *)
Fixpoint aquicksort_loop (fuel : nat) (pl pr : nat) (cdepth : Z)
    (stack : list (nat * nat * Z)) (tosort : list nat) : list nat :=
  match fuel with
  | 0 => tosort
  | S fuel =>
      let '(stack, tosort) :=
        if (cdepth <? 0)%Z
        then (stack, aheapsort pl (pr - pl + 1) tosort)
        else
          let '(pl, pr, stack, tosort) :=
            partitions (length tosort) pl pr cdepth stack tosort in
          (stack, insertion_sort pl pr tosort) in
      match stack with
      | [] => tosort
      | (pl, pr, cdepth) :: stack => aquicksort_loop fuel pl pr cdepth stack tosort
      end
  end.

(** [v.argsort(kind="quicksort")]. *)
Definition argsort : list nat :=
  let num := length v in
  aquicksort_loop (S num) 0 (num - 1) (get_msb num * 2) [] (seq 0 num).

End argsort.
End np.

(** [df.sort_values(col)] as pandas does it by default: the rows taken
    at the positions numpy's quicksort gives for their keys. *)
Definition quicksort_rows (key : list pyval -> Z) (rows : list (list pyval))
  : list (list pyval) :=
  let indexer := np.argsort (key <$> rows) in
  omap (fun i => rows !! i) indexer.

(** ** Stand-ins for the library calls, for the closed examples *)

Module Sample.

(** [bytes.decode("utf-8")] on ASCII payloads: the same bytes as text;
    a byte above 127 is taken as undecodable. *)
Definition utf8_decode (payload : list Byte.byte) : option string :=
  if forallb (fun b => Byte.to_nat b <? 128) payload
  then Some (String.string_of_list_byte payload)
  else None.

(** [json.loads] on the texts of the examples: the empty object, the
    empty array, and text that is not JSON. *)
Definition json_loads (s : string) : option pyval :=
  if String.eqb s "{}" then Some (PDict ∅)
  else if String.eqb s "[]" then Some (PList [])
  else None.

(** The layouts of the timestamps of the examples, as pandas tells
    them apart when it settles on a format:
    [%Y-%m-%dT%H:%M:%S], [%Y-%m-%dT%H:%M:%S.%f] and
    [%Y-%m-%dT%H:%M:%S%z]. *)
Inductive layout := Seconds | Microseconds | SecondsOffset.

Definition layout_eqb (a b : layout) : bool :=
  match a, b with
  | Seconds, Seconds | Microseconds, Microseconds
  | SecondsOffset, SecondsOffset => true
  | _, _ => false
  end.

(** A timestamp as pandas reads it from a text: the layout of the
    text, its UTC offset in seconds if it states one, and the
    nanoseconds since the epoch. *)
Record stamp := { stamp_layout : layout; utcoffset : option Z; value : Z }.

(** The texts of the examples that are timestamps. *)
Definition read_stamp (c : pyval) : option stamp :=
  match c with
  | PStr s =>
      if String.eqb s "2024-01-01T00:00:00"
      then Some {| stamp_layout := Seconds; utcoffset := None;
                   value := 1704067200000000000 |}
      else if String.eqb s "2024-01-01T00:00:01"
      then Some {| stamp_layout := Seconds; utcoffset := None;
                   value := 1704067201000000000 |}
      else if String.eqb s "2024-01-01T00:00:01.500000"
      then Some {| stamp_layout := Microseconds; utcoffset := None;
                   value := 1704067201500000000 |}
      else if String.eqb s "2024-01-01T00:00:00+00:00"
      then Some {| stamp_layout := SecondsOffset; utcoffset := Some 0%Z;
                   value := 1704067200000000000 |}
      else if String.eqb s "2024-01-01T02:00:01+02:00"
      then Some {| stamp_layout := SecondsOffset; utcoffset := Some 7200%Z;
                   value := 1704067201000000000 |}
      else None
  | _ => None
  end.

(** [pd.to_datetime(column, errors="coerce")] on the columns of the
    examples, as pandas 2 and later do it: the format is guessed from
    the first cell that is not missing and every cell is then read with
    that format alone, a cell in any other layout becoming [NaT]; when
    no format can be guessed each cell is read on its own.  Cells read
    with different UTC offsets make the call raise [ValueError]. *)
Definition to_datetime (col : list pyval) : res (list (option Z)) :=
  let guessed :=
    match filter (fun c => isna c = false) col with
    | c :: _ => stamp_layout <$> read_stamp c
    | [] => None
    end in
  let cells :=
    (fun c => match guessed, read_stamp c with
              | Some f, Some t => if layout_eqb f (stamp_layout t) then Some t else None
              | _, o => o
              end) <$> col in
  match utcoffset <$> omap id cells with
  | off :: offs =>
      if forallb (fun o => bool_decide (o = off)) offs
      then Ret (fmap (M := option) value <$> cells)
      else Raise (ValueError MixedTimezones)
  | [] => Ret (fmap (M := option) value <$> cells)
  end.

(** [pd.to_numeric] on the cells of the examples: a number is itself,
    a missing cell and text that is no number are [NaN]. *)
Definition to_numeric (c : pyval) : option Q :=
  match c with
  | PNum q => Some q
  | _ => None
  end.

(** A split without shuffling: the first fifth is the test part. *)
Definition train_test_split (X : list (list Q)) (y : list Q) (test_size : Q) (seed : Z)
  : Train.partitions :=
  let n_test := length y - length y * 4 / 5 in
  {| Train.X_train := drop n_test X; Train.X_test := take n_test X;
     Train.y_train := drop n_test y; Train.y_test := take n_test y |}.

(** A fit that ignores the features and predicts the first target. *)
Definition fit (X : list (list Q)) (y : list Q) : LinearRegression :=
  {| coef_ := []; intercept_ := default (0 # 1)%Q (head y) |}.

(** [LinearRegression.predict] on one sample, in exact arithmetic. *)
Definition predict_one (model : LinearRegression) (x : list Q) : Q :=
  foldr Qplus (intercept_ model) (zip_with Qmult (coef_ model) x).

(** [model.predict(X)], in exact arithmetic. *)
Definition predict (model : LinearRegression) (X : list (list Q)) : list Q :=
  predict_one model <$> X.

(** [mean_absolute_error(y_true, y_pred)], in exact arithmetic. *)
Definition mean_absolute_error (y_true y_pred : list Q) : Q :=
  Qdiv (foldr Qplus (0 # 1)%Q (zip_with (fun a b => Qabs (Qminus a b)) y_true y_pred))
       (inject_Z (Z.of_nat (length y_true))).

(** The payloads of the examples. *)
Definition empty_object : list Byte.byte := String.list_byte_of_string "{}".
Definition not_json : list Byte.byte := String.list_byte_of_string "21.5 degrees".
Definition not_utf8 : list Byte.byte := [Byte.xff; Byte.xfe].

(** A machine with the data directory and nothing else. *)
Definition fresh : world :=
  {| data_dir := true; data_file := None; model_dir := false;
     model_file := None; stdout := [] |}.

(** A store row with its seven cells. *)
Definition row (timestamp : string) (t h p w r : Q) (location : string) : list pyval :=
  [PStr timestamp; PNum t; PNum h; PNum p; PNum w; PNum r; PStr location].

(** A machine whose store holds the given rows under the schema header. *)
Definition with_store (body : csv) : world :=
  {| data_dir := true; data_file := Some ((PStr <$> SCHEMA) :: body);
     model_dir := false; model_file := None; stdout := [] |}.

(** A machine whose data file holds the given lines. *)
Definition with_file (f : csv) : world :=
  {| data_dir := true; data_file := Some f;
     model_dir := false; model_file := None; stdout := [] |}.

(** One reading, as a line of a CSV file. *)
Definition reading : list pyval :=
  row "2024-01-01T00:00:00" (43 # 2)%Q (60 # 1)%Q (1012 # 1)%Q (16 # 5)%Q (0 # 1)%Q "A".

(** The header of a file with the columns [Train.main] asks for. *)
Definition training_header : list pyval :=
  PStr <$> ["timestamp"; "temperature"; "humidity"; "pressure";
            "wind_speed"; "rainfall"; "device_id"].

(** A file with that header and [n] readings. *)
Definition training_file (n : nat) : csv :=
  training_header :: replicate n reading.

(** Two readings with the same timestamp, from places "A" and "B", in
    the order they were appended. *)
Definition tied_rows : csv :=
  [row "2024-01-01T00:00:00" (43 # 2)%Q (60 # 1)%Q (1012 # 1)%Q (16 # 5)%Q (0 # 1)%Q "A";
   row "2024-01-01T00:00:00" (45 # 2)%Q (61 # 1)%Q (1011 # 1)%Q (17 # 5)%Q (0 # 1)%Q "B"].

(** Two readings whose timestamps state different UTC offsets. *)
Definition offset_rows : csv :=
  [row "2024-01-01T00:00:00+00:00" (43 # 2)%Q (60 # 1)%Q (1012 # 1)%Q (16 # 5)%Q (0 # 1)%Q "A";
   row "2024-01-01T02:00:01+02:00" (45 # 2)%Q (61 # 1)%Q (1011 # 1)%Q (17 # 5)%Q (0 # 1)%Q "B"].

(** A reading stamped to the second, then one stamped to the
    microsecond as [datetime.utcnow().isoformat()] writes it. *)
Definition format_rows : csv :=
  [row "2024-01-01T00:00:00" (43 # 2)%Q (60 # 1)%Q (1012 # 1)%Q (16 # 5)%Q (0 # 1)%Q "A";
   row "2024-01-01T00:00:01.500000" (45 # 2)%Q (61 # 1)%Q (1011 # 1)%Q (17 # 5)%Q (0 # 1)%Q "B"].

(** A reading numbered by its temperature. *)
Definition reading_at (timestamp : string) (k : nat) : list pyval :=
  row timestamp (Z.of_nat k # 1)%Q (60 # 1)%Q (1012 # 1)%Q (16 # 5)%Q (0 # 1)%Q "A".

(** Twenty readings in the order they were appended: one, then eight
    stamped a second later, then eleven more stamped like the first. *)
Definition burst_rows : csv :=
  reading_at "2024-01-01T00:00:00" 0
  :: (reading_at "2024-01-01T00:00:01" <$> seq 1 8)
  ++ (reading_at "2024-01-01T00:00:00" <$> seq 9 11).

(** The times of those twenty readings. *)
Definition burst_times : list (option Z) :=
  Some 1704067200000000000%Z
  :: replicate 8 (Some 1704067201000000000%Z)
  ++ replicate 11 (Some 1704067200000000000%Z).

(** A reading, a line whose timestamp does not parse, and a later
    reading. *)
Definition mixed_rows : csv :=
  [row "2024-01-01T00:00:00" (43 # 2)%Q (60 # 1)%Q (1012 # 1)%Q (16 # 5)%Q (0 # 1)%Q "A";
   row "yesterday" (44 # 2)%Q (60 # 1)%Q (1012 # 1)%Q (16 # 5)%Q (0 # 1)%Q "A";
   row "2024-01-01T00:00:01" (45 # 2)%Q (61 # 1)%Q (1011 # 1)%Q (17 # 5)%Q (0 # 1)%Q "B"].

End Sample.

(** The record [on_message] builds from a decoded JSON object. *)
Definition record_of (now : string) (d : gmap string pyval) : record :=
  [("timestamp", default (PStr now) (d !! "timestamp"));
   ("temperature", default PNone (d !! "temperature"));
   ("humidity", default PNone (d !! "humidity"));
   ("pressure", default PNone (d !! "pressure"));
   ("wind_speed", default PNone (d !! "wind_speed"));
   ("rainfall", default PNone (d !! "rainfall"));
   ("location", default (PStr "unknown") (d !! "location"))].

(** [print line] on a world. *)
Definition printed (line : console) (w : world) : world :=
  {| data_dir := data_dir w; data_file := data_file w;
     model_dir := model_dir w; model_file := model_file w;
     stdout := stdout w ++ [line] |}.


(** The buffer after the dashboard received [msgs], from the empty
    buffer the module starts with. *)
Definition deliver
    (utf8_decode : list Byte.byte -> option string)
    (json_loads : string -> option pyval)
    (msgs : list (list Byte.byte)) (mqtt_buffer : list pyval) : list pyval :=
  foldl (fun buf m => fst (Dashboard.on_mqtt_message utf8_decode json_loads m buf))
        mqtt_buffer msgs.

(** What [on_mqtt_message] pushes for a message: the decoded JSON, or
    the text when it is not JSON; nothing when the bytes are not text. *)
Definition pushed
    (utf8_decode : list Byte.byte -> option string)
    (json_loads : string -> option pyval)
    (m : list Byte.byte) : option pyval :=
  match utf8_decode m with
  | Some s => Some (default (PStr s) (json_loads s))
  | None => None
  end.

(** The parsed time of a loaded row (its first cell). *)
Definition time_of (r : list pyval) : Z := Dashboard.ts_of (pd.cell r 0).

(** The data file is absent or a store file. *)
Definition store_ok (w : world) : Prop :=
  match data_file w with
  | None => True
  | Some f => store_file f
  end.

(** The claim that the realtime loop serves the last row of a stable
    ascending sort by timestamp: among the rows with the latest
    timestamp, the one appended last. *)
Definition serves_most_recent_of_ties
    (to_datetime : list pyval -> res (list (option Z)))
    (sort_rows : (list pyval -> Z) -> list (list pyval) -> list (list pyval)) : Prop :=
  forall w body times latest predictor,
    data_file w = Some ((PStr <$> SCHEMA) :: body) ->
    Forall (fun r => length r = 7) body ->
    to_datetime (timestamps body) = Ret times ->
    snd (Dashboard.poll to_datetime sort_rows w) = Ret (Dashboard.Serving latest predictor) ->
    last (stable_sort_by time_of (kept_rows times body)) = Some latest.

(** The predictor a pass of the realtime loop ends up with. *)
Definition predictor_of (w : world) : option Predict.TemperaturePredictor :=
  Predict.Build_TemperaturePredictor <$> model_file w.

(** ** Runs of the gateway *)

(** The gateway's callback over the messages of a session, each with
    the time it arrives at. *)
Definition gateway_run
    (utf8_decode : list Byte.byte -> option string)
    (json_loads : string -> option pyval)
    (msgs : list (string * list Byte.byte)) (w : world) : world :=
  foldl (fun w m => fst (Gateway.on_message utf8_decode json_loads m.1 m.2 w)) w msgs.

(** The lines a session adds to the store: one per message from which
    a record is built, in arrival order. *)
Definition accepted_rows
    (utf8_decode : list Byte.byte -> option string)
    (json_loads : string -> option pyval)
    (msgs : list (string * list Byte.byte)) : csv :=
  omap (fun m => match Gateway.make_record utf8_decode json_loads m.1 m.2 with
                 | Ret r => Some (snd <$> r)
                 | Raise _ => None
                 end) msgs.

(** A session of three messages: the empty object, text that is not
    JSON, and the empty object again a second later. *)
Definition sample_session : list (string * list Byte.byte) :=
  [("2024-01-01T00:00:00", Sample.empty_object);
   ("2024-01-01T00:00:00", Sample.not_json);
   ("2024-01-01T00:00:01", Sample.empty_object)].

(** * Properties *)

(** ** The bounded live buffer *)

Lemma slice_last_length {A} (n : nat) (l : list A) :
  length (Dashboard.slice_last n l) = min n (length l).
Proof. unfold Dashboard.slice_last. rewrite length_drop. lia. Qed.

Lemma slice_last_snoc {A} (n : nat) (l : list A) (x : A) :
  0 < n ->
  Dashboard.slice_last n (Dashboard.slice_last n l ++ [x])
  = Dashboard.slice_last n (l ++ [x]).
Proof.
  intros Hn. unfold Dashboard.slice_last.
  rewrite !length_app, length_drop. simpl.
  destruct (decide (length l < n)) as [Hlt|Hge].
  - replace (length l - n) with 0 by lia. simpl.
    replace (length l - 0 + 1 - n) with 0 by lia.
    replace (length l + 1 - n) with 0 by lia. reflexivity.
  - replace (length l - (length l - n) + 1 - n) with 1 by lia.
    replace (length l + 1 - n) with ((length l - n) + 1) by lia.
    rewrite <- drop_drop. f_equal.
    rewrite drop_app_le by lia. reflexivity.
Qed.

Lemma pushes_slice (xs : list pyval) :
  foldl (fun buf x => Dashboard.buffer_push x buf) [] xs = Dashboard.slice_last 5 xs.
Proof.
  induction xs as [|x xs IH] using rev_ind; [reflexivity|].
  rewrite foldl_app. simpl. rewrite IH. unfold Dashboard.buffer_push.
  apply slice_last_snoc. lia.
Qed.

Lemma on_mqtt_message_pushed utf8_decode json_loads m buf :
  fst (Dashboard.on_mqtt_message utf8_decode json_loads m buf)
  = match pushed utf8_decode json_loads m with
    | Some p => Dashboard.buffer_push p buf
    | None => buf
    end.
Proof.
  unfold Dashboard.on_mqtt_message, pushed, Dashboard.decode, Dashboard.loads, res_try.
  destruct (utf8_decode m) as [s|]; simpl; [|reflexivity].
  destruct (json_loads s); reflexivity.
Qed.

Lemma deliver_pushes utf8_decode json_loads msgs buf :
  deliver utf8_decode json_loads msgs buf
  = foldl (fun buf x => Dashboard.buffer_push x buf) buf
          (omap (pushed utf8_decode json_loads) msgs).
Proof.
  unfold deliver. revert buf.
  induction msgs as [|m msgs IH]; intros buf; [reflexivity|].
  simpl. rewrite IH, on_mqtt_message_pushed.
  destruct (pushed utf8_decode json_loads m); reflexivity.
Qed.

(** C5. After any sequence of messages delivered to [on_mqtt_message]
    from the empty buffer, the buffer holds at most five items; and
    once five or more payloads were pushed it is exactly the five most
    recently pushed ones, oldest first. *)
Theorem buffer_keeps_last_five utf8_decode json_loads (msgs : list (list Byte.byte)) :
  let xs := omap (pushed utf8_decode json_loads) msgs in
  let buf := deliver utf8_decode json_loads msgs [] in
  length buf <= 5 /\
  (length xs <= 5 -> buf = xs) /\
  (5 <= length xs -> buf = drop (length xs - 5) xs /\ length buf = 5).
Proof.
  intros xs buf. subst buf. rewrite deliver_pushes. fold xs.
  rewrite pushes_slice. split; [|split].
  - rewrite slice_last_length. lia.
  - intros H. unfold Dashboard.slice_last.
    replace (length xs - 5) with 0 by lia. reflexivity.
  - intros H. split; [reflexivity|]. rewrite slice_last_length. lia.
Qed.

(** ** The gateway *)

(** Unfold the monad operations of a program applied to a world. *)
Ltac run :=
  unfold mbind, mret, fmap, M_bind, M_ret, M_fmap, res_bind, res_ret, res_fmap,
    try_except, lift, raise, print, data_file_exists;
  simpl.

Section GatewayProperties.

Variable utf8_decode : list Byte.byte -> option string.
Variable json_loads : string -> option pyval.

#[local] Abbreviation make_record := (Gateway.make_record utf8_decode json_loads).
#[local] Abbreviation on_message := (Gateway.on_message utf8_decode json_loads).

Lemma make_record_not_text now payload :
  utf8_decode payload = None ->
  make_record now payload = Raise UnicodeDecodeError.
Proof.
  intros H. unfold Gateway.make_record, Gateway.decode. rewrite H. reflexivity.
Qed.

Lemma make_record_not_json now payload s :
  utf8_decode payload = Some s -> json_loads s = None ->
  make_record now payload = Raise JSONDecodeError.
Proof.
  intros H1 H2. unfold Gateway.make_record, Gateway.decode, Gateway.loads.
  rewrite H1. run. rewrite H2. reflexivity.
Qed.

Lemma make_record_object now payload s d :
  utf8_decode payload = Some s -> json_loads s = Some (PDict d) ->
  make_record now payload = Ret (record_of now d).
Proof.
  intros H1 H2. unfold Gateway.make_record, Gateway.decode, Gateway.loads.
  rewrite H1. run. rewrite H2. reflexivity.
Qed.

Lemma make_record_not_object now payload s v :
  utf8_decode payload = Some s -> json_loads s = Some v ->
  (forall d, v <> PDict d) ->
  make_record now payload = Raise AttributeError.
Proof.
  intros H1 H2 Hv. unfold Gateway.make_record, Gateway.decode, Gateway.loads.
  rewrite H1. run. rewrite H2.
  destruct v; try reflexivity. destruct (Hv d). reflexivity.
Qed.

(** A message whose record cannot be built is logged and changes
    nothing else. *)
Lemma on_message_rejects now payload w e :
  make_record now payload = Raise e ->
  on_message now payload w = (printed (ErrorProcessingMessage e) w, Ret tt).
Proof.
  intros H. unfold Gateway.on_message, Gateway.on_message_body. run.
  rewrite H. reflexivity.
Qed.

(** A message whose record is built is appended as one line, after the
    header when the file was absent. *)
Lemma on_message_stores now payload w r :
  make_record now payload = Ret r -> data_dir w = true ->
  on_message now payload w
  = (printed (Stored r)
       (pd.set_data_file
          (Some (match data_file w with
                 | Some old => old ++ [snd <$> r]
                 | None => [(PStr ∘ fst) <$> r; snd <$> r]
                 end)) w), Ret tt).
Proof.
  intros H Hd. unfold Gateway.on_message, Gateway.on_message_body. run.
  rewrite H. unfold pd.to_csv_append. simpl. rewrite Hd.
  destruct (data_file w) as [old|]; reflexivity.
Qed.

(** Without the data directory the append fails, and the failure is
    logged like any other. *)
Lemma on_message_no_directory now payload w r :
  make_record now payload = Ret r -> data_dir w = false ->
  on_message now payload w = (printed (ErrorProcessingMessage OSError) w, Ret tt).
Proof.
  intros H Hd. unfold Gateway.on_message, Gateway.on_message_body. run.
  rewrite H. unfold pd.to_csv_append. simpl. rewrite Hd. reflexivity.
Qed.

(** C6. [on_message] never raises to its caller.  A payload that is
    not UTF-8 text or not JSON builds no record: the failure is the
    logged rejection and the world is otherwise unchanged.  A payload
    that decodes to a JSON object builds a record whose location is
    "unknown" when the key is missing and whose timestamp is the
    receipt time when that key is missing. *)
Theorem on_message_never_raises now payload w :
  snd (on_message now payload w) = Ret tt /\
  (utf8_decode payload = None ->
     make_record now payload = Raise UnicodeDecodeError /\
     on_message now payload w
     = (printed (ErrorProcessingMessage UnicodeDecodeError) w, Ret tt)) /\
  (forall s, utf8_decode payload = Some s -> json_loads s = None ->
     make_record now payload = Raise JSONDecodeError /\
     on_message now payload w
     = (printed (ErrorProcessingMessage JSONDecodeError) w, Ret tt)) /\
  (forall s d, utf8_decode payload = Some s -> json_loads s = Some (PDict d) ->
     exists r, make_record now payload = Ret r /\
       (d !! "location" = None -> r !! 6 = Some ("location", PStr "unknown")) /\
       (d !! "timestamp" = None -> r !! 0 = Some ("timestamp", PStr now))).
Proof.
  split; [|split; [|split]].
  - destruct (make_record now payload) as [r|e] eqn:H.
    + destruct (data_dir w) eqn:Hd.
      * rewrite (on_message_stores _ _ _ _ H Hd). reflexivity.
      * rewrite (on_message_no_directory _ _ _ _ H Hd). reflexivity.
    + rewrite (on_message_rejects _ _ _ _ H). reflexivity.
  - intros H. pose proof (make_record_not_text now payload H) as Hr.
    split; [exact Hr|]. apply on_message_rejects, Hr.
  - intros s H1 H2. pose proof (make_record_not_json now payload s H1 H2) as Hr.
    split; [exact Hr|]. apply on_message_rejects, Hr.
  - intros s d H1 H2. exists (record_of now d).
    split; [apply (make_record_object _ _ s); assumption|].
    unfold record_of. simpl. split; intros ->; reflexivity.
Qed.


End GatewayProperties.

(** Six messages that are text but not JSON: the first is evicted. *)
Lemma buffer_keeps_last_five_witness :
  let msgs := String.list_byte_of_string <$> ["a"; "b"; "c"; "d"; "e"; "f"] in
  5 <= length (omap (pushed Sample.utf8_decode Sample.json_loads) msgs) /\
  deliver Sample.utf8_decode Sample.json_loads msgs []
  = [PStr "b"; PStr "c"; PStr "d"; PStr "e"; PStr "f"].
Proof.
  intros msgs.
  destruct (buffer_keeps_last_five Sample.utf8_decode Sample.json_loads msgs)
    as (_ & _ & H).
  assert (Hlen : 5 <= length (omap (pushed Sample.utf8_decode Sample.json_loads) msgs))
    by (vm_compute; lia).
  split; [exact Hlen|].
  destruct (H Hlen) as [-> _]. reflexivity.
Defined.

(** The empty object, bytes that are not UTF-8 and text that is not
    JSON, on a machine without a data file. *)
Lemma on_message_never_raises_witness :
  snd (Gateway.on_message Sample.utf8_decode Sample.json_loads
         "2024-01-01T00:00:00" Sample.empty_object Sample.fresh) = Ret tt /\
  Gateway.on_message Sample.utf8_decode Sample.json_loads
    "2024-01-01T00:00:00" Sample.not_utf8 Sample.fresh
  = (printed (ErrorProcessingMessage UnicodeDecodeError) Sample.fresh, Ret tt) /\
  Gateway.on_message Sample.utf8_decode Sample.json_loads
    "2024-01-01T00:00:00" Sample.not_json Sample.fresh
  = (printed (ErrorProcessingMessage JSONDecodeError) Sample.fresh, Ret tt) /\
  exists r,
    Gateway.make_record Sample.utf8_decode Sample.json_loads
      "2024-01-01T00:00:00" Sample.empty_object = Ret r /\
    r !! 6 = Some ("location", PStr "unknown") /\
    r !! 0 = Some ("timestamp", PStr "2024-01-01T00:00:00").
Proof.
  split; [|split; [|split]].
  - apply (on_message_never_raises Sample.utf8_decode Sample.json_loads).
  - apply (on_message_never_raises Sample.utf8_decode Sample.json_loads
             "2024-01-01T00:00:00" Sample.not_utf8 Sample.fresh).
    reflexivity.
  - apply (on_message_never_raises Sample.utf8_decode Sample.json_loads
             "2024-01-01T00:00:00" Sample.not_json Sample.fresh) with "21.5 degrees";
      reflexivity.
  - destruct (on_message_never_raises Sample.utf8_decode Sample.json_loads
                "2024-01-01T00:00:00" Sample.empty_object Sample.fresh)
      as (_ & _ & _ & H).
    destruct (H "{}" ∅ eq_refl eq_refl) as (r & Hr & Hl & Ht).
    exists r. split; [exact Hr|].
    split; [apply Hl | apply Ht]; apply lookup_empty.
Defined.



(** ** Columns and cells *)

Lemma index_of_lookup name cols i :
  pd.index_of name cols = Some i -> cols !! i = Some (PStr name).
Proof.
  revert i. induction cols as [|c cs IH]; intros i; simpl; [discriminate|].
  destruct (pd.is_label name c) eqn:Hc.
  - intros [= <-]. simpl. destruct c; try discriminate.
    simpl in Hc. apply String.eqb_eq in Hc. subst. reflexivity.
  - destruct (pd.index_of name cs) as [j|]; simpl; [|discriminate].
    intros [= <-]. simpl. apply IH. reflexivity.
Qed.

Lemma index_of_lt name cols i :
  pd.index_of name cols = Some i -> i < length cols.
Proof. intros H. apply index_of_lookup in H. eapply lookup_lt_Some, H. Qed.

Lemma index_of_inj n m cols i :
  pd.index_of n cols = Some i -> pd.index_of m cols = Some i -> n = m.
Proof.
  intros Hn Hm. apply index_of_lookup in Hn, Hm. congruence.
Qed.

Lemma index_of_existsb name cols :
  existsb (pd.is_label name) cols = true <-> is_Some (pd.index_of name cols).
Proof.
  induction cols as [|c cs IH]; simpl.
  - split; [discriminate|]. intros [? [=]].
  - destruct (pd.is_label name c); simpl; [split; eauto|].
    rewrite IH. destruct (pd.index_of name cs); simpl; split; eauto.
    all: intros [? [=]].
Qed.

Lemma issubset_index names cols :
  Train.issubset names cols = true ->
  forall n, n ∈ names -> is_Some (pd.index_of n cols).
Proof.
  unfold Train.issubset. rewrite forallb_forall. intros H n Hn.
  apply index_of_existsb, H, list_elem_of_In, Hn.
Qed.

Lemma cell_insert (r : list pyval) i j v :
  i < length r ->
  pd.cell (<[i := v]> r) j = if decide (i = j) then v else pd.cell r j.
Proof.
  intros Hi. unfold pd.cell. destruct (decide (i = j)) as [->|Hne].
  - rewrite list_lookup_insert_eq by lia. reflexivity.
  - rewrite list_lookup_insert_ne by assumption. reflexivity.
Qed.

Lemma forallb_ext_in {A} (f g : A -> bool) (l : list A) :
  (forall x, x ∈ l -> f x = g x) -> forallb f l = forallb g l.
Proof.
  induction l as [|x l IH]; intros H; simpl; [reflexivity|].
  rewrite H by left. rewrite IH; [reflexivity|].
  intros y Hy. apply H. right. exact Hy.
Qed.

(** ** The training pipeline *)

Section TrainProperties.

Variable to_numeric : pyval -> option Q.
Variable train_test_split :
  list (list Q) -> list Q -> Q -> Z -> Train.partitions.
Variable fit : list (list Q) -> list Q -> LinearRegression.
Variable predict : LinearRegression -> list (list Q) -> list Q.
Variable mean_absolute_error : list Q -> list Q -> Q.

#[local] Abbreviation main :=
  (Train.main to_numeric train_test_split fit predict mean_absolute_error).
#[local] Abbreviation coerce := (Train.coerce to_numeric).

#[local] Abbreviation step := (coerce_at to_numeric).


Lemma coerce_row_foldl header r :
  coerce_row to_numeric header r
  = foldl (step header) r (Train.FEATURES ++ [Train.TARGET]).
Proof. reflexivity. Qed.

Lemma coerce_columns_rows names df :
  (forall n, n ∈ names -> is_Some (pd.index_of n (columns df))) ->
  Train.coerce_columns to_numeric names df
  = Ret {| columns := columns df;
           rows := (fun r => foldl (step (columns df)) r names) <$> rows df |}.
Proof.
  revert df. induction names as [|n names IH]; intros df H.
  - cbn. rewrite list_fmap_id. destruct df; reflexivity.
  - cbn [Train.coerce_columns foldl]. unfold pd.map_column.
    destruct (H n) as [i Hi]; [left|]. rewrite Hi.
    rewrite IH; simpl.
    + f_equal. f_equal. rewrite <- list_fmap_compose.
      apply list_fmap_ext. intros _ r _. simpl.
      assert (Hstep : step (columns df) r n
                      = <[i := coerce (pd.cell r i)]> r)
        by (unfold coerce_at; rewrite Hi; reflexivity).
      rewrite Hstep. reflexivity.
    + intros m Hm. apply H. right. exact Hm.
Qed.

Lemma length_coerce_at header r n :
  length (step header r n) = length r.
Proof.
  unfold coerce_at. destruct (pd.index_of n header); [apply length_insert|reflexivity].
Qed.

Lemma length_foldl_coerce_at header names r :
  length (foldl (step header) r names) = length r.
Proof.
  revert r. induction names as [|n names IH]; intros r; simpl; [reflexivity|].
  rewrite IH. apply length_coerce_at.
Qed.

Lemma cell_coerce_at_other header r n m i :
  pd.index_of m header = Some i -> n <> m ->
  pd.cell (step header r n) i = pd.cell r i.
Proof.
  intros Hm Hne. unfold coerce_at.
  destruct (pd.index_of n header) as [j|] eqn:Hn; [|reflexivity].
  unfold pd.cell. rewrite list_lookup_insert_ne; [reflexivity|].
  intros ->. apply Hne. eapply index_of_inj; eassumption.
Qed.

Lemma cell_foldl_other header names r m i :
  pd.index_of m header = Some i -> m ∉ names ->
  pd.cell (foldl (step header) r names) i = pd.cell r i.
Proof.
  intros Hm. revert r. induction names as [|n names IH]; intros r Hnot; simpl.
  - reflexivity.
  - rewrite IH by (intros ?; apply Hnot; right; assumption).
    apply (cell_coerce_at_other header r n m i Hm).
    intros ->. apply Hnot. left.
Qed.

Lemma cell_foldl_coerced header names r m i :
  NoDup names -> length r = length header ->
  pd.index_of m header = Some i -> m ∈ names ->
  pd.cell (foldl (step header) r names) i = coerce (pd.cell r i).
Proof.
  intros Hnd. revert r. induction Hnd as [|n names Hn Hnd IH]; intros r Hlen Hm Hin.
  - inversion Hin.
  - simpl. apply elem_of_cons in Hin as [->|Hin].
    + rewrite (cell_foldl_other header names _ n i Hm Hn).
      unfold coerce_at. rewrite Hm. rewrite cell_insert.
      * rewrite decide_True by reflexivity. reflexivity.
      * rewrite Hlen. eapply index_of_lt, Hm.
    + rewrite IH; [|rewrite length_coerce_at; assumption|assumption|assumption].
      f_equal. apply (cell_coerce_at_other header r n m i Hm).
      intros ->. contradiction.
Qed.

Lemma isna_coerce c :
  negb (isna (coerce c)) = bool_decide (is_Some (to_numeric c)).
Proof.
  unfold Train.coerce. destruct (to_numeric c); reflexivity.
Qed.

Lemma training_names_NoDup : NoDup (Train.FEATURES ++ [Train.TARGET]).
Proof. apply (bool_decide_unpack _). vm_compute. exact I. Qed.

Lemma notna_coerce_row header r :
  length r = length header ->
  (forall n, n ∈ Train.FEATURES ++ [Train.TARGET] -> is_Some (pd.index_of n header)) ->
  forallb (fun n => pd.notna_at header n (coerce_row to_numeric header r))
          (Train.FEATURES ++ [Train.TARGET])
  = valid_row to_numeric header r.
Proof.
  intros Hlen Hidx. unfold valid_row. apply forallb_ext_in. intros n Hn.
  unfold pd.notna_at. destruct (Hidx n Hn) as [i Hi]. rewrite Hi.
  rewrite coerce_row_foldl.
  rewrite (cell_foldl_coerced header _ r n i training_names_NoDup Hlen Hi Hn).
  apply isna_coerce.
Qed.

#[local] Arguments Train.issubset : simpl never.
#[local] Arguments Train.coerce_columns : simpl never.
#[local] Arguments pd.dropna : simpl never.
#[local] Arguments Train.split : simpl never.
#[local] Arguments Nat.ltb : simpl never.

Lemma filter_fmap_in {A B} (P : B -> Prop) (Q : A -> Prop)
    `{!forall x, Decision (P x), !forall x, Decision (Q x)} (f : A -> B) (l : list A) :
  Forall (fun x => P (f x) <-> Q x) l ->
  filter P (f <$> l) = f <$> filter Q l.
Proof.
  induction 1 as [|x l Hx _ IH]; [reflexivity|].
  rewrite fmap_cons. destruct (decide (Q x)) as [HQ|HQ].
  - rewrite !filter_cons_True by tauto. rewrite fmap_cons, IH. reflexivity.
  - rewrite !filter_cons_False by tauto. exact IH.
Qed.

Lemma expected_has_training_names n :
  n ∈ Train.FEATURES ++ [Train.TARGET] -> n ∈ Train.expected_columns.
Proof.
  unfold Train.expected_columns, Train.FEATURES, Train.TARGET. simpl.
  rewrite !elem_of_cons. intuition.
Qed.

Lemma main_no_file w :
  data_file w = None -> main w = (w, Raise FileNotFoundError).
Proof.
  intros H. destruct w as [dd f md mf out]. simpl in H. subst f. reflexivity.
Qed.

Lemma main_column_mismatch w h body :
  data_file w = Some (h :: body) ->
  Train.issubset Train.expected_columns h = false ->
  main w = (with_model_dir w,
            Raise (ValueError (CsvColumnMismatch Train.expected_columns h))).
Proof.
  intros H Hsub. destruct w as [dd f md mf out]. simpl in H. subst f.
  unfold Train.main. run. rewrite Hsub. reflexivity.
Qed.

(** The frame that reaches the row-count check is the cleaned frame. *)
Lemma coerce_dropna_cleaned h body :
  Train.issubset Train.expected_columns h = true ->
  rectangular (h :: body) ->
  (Train.coerce_columns to_numeric (Train.FEATURES ++ [Train.TARGET])
     {| columns := h; rows := body |}
   ≫= pd.dropna (Train.FEATURES ++ [Train.TARGET]))
  = Ret (cleaned to_numeric h body).
Proof.
  intros Hsub Hrect.
  assert (Hidx : forall n, n ∈ Train.FEATURES ++ [Train.TARGET] ->
                           is_Some (pd.index_of n h)).
  { intros n Hn. eapply issubset_index; [exact Hsub|].
    apply expected_has_training_names, Hn. }
  rewrite coerce_columns_rows by exact Hidx.
  unfold mbind, res_bind, pd.dropna. cbn [columns rows].
  destruct (list_find _ _) as [[k n]|] eqn:Hfind.
  - apply list_find_Some in Hfind as (Hk & Hnone & _).
    apply list_elem_of_lookup_2 in Hk. destruct (Hidx n Hk) as [i Hi]. congruence.
  - unfold cleaned. f_equal. f_equal.
    apply filter_fmap_in. eapply Forall_impl; [exact Hrect|].
    intros r Hlen. cbn beta.
    rewrite <- (notna_coerce_row h r Hlen Hidx). reflexivity.
Qed.

(** What [main] does on a file that passes the column validation. *)
Lemma main_validated w h body :
  data_file w = Some (h :: body) ->
  Train.issubset Train.expected_columns h = true ->
  rectangular (h :: body) ->
  let df := cleaned to_numeric h body in
  let p := Train.split train_test_split df in
  let model := fit (Train.X_train p) (Train.y_train p) in
  let mae := mean_absolute_error
               (Train.y_test p) (predict model (Train.X_test p)) in
  main w
  = if length (rows df) <? 5
    then (with_model_dir w, Raise (ValueError (NotEnoughData (length (rows df)))))
    else (trained_world model mae w, Ret tt).
Proof.
  intros H Hsub Hrect df p model mae.
  pose proof (coerce_dropna_cleaned h body Hsub Hrect) as Hclean.
  destruct w as [dd f md mf out]. simpl in H. subst f.
  unfold Train.main. run. rewrite Hsub. simpl.
  unfold mbind, res_bind in Hclean. simpl in Hclean.
  destruct (Train.coerce_columns _ _ _) as [df1|e]; [|discriminate].
  rewrite Hclean. subst mae model p df. simpl.
  destruct (_ <? 5); [reflexivity|].
  unfold trained_world. simpl. rewrite <- !app_assoc. reflexivity.
Qed.

(** A run that fails leaves the persisted model as it was. *)
Lemma main_failure_keeps_model w e :
  snd (main w) = Raise e -> model_file (fst (main w)) = model_file w.
Proof.
  destruct w as [dd [[|h body]|] md mf out]; try reflexivity.
  unfold Train.main. run.
  destruct (Train.issubset _ _); simpl; [|reflexivity].
  destruct (Train.coerce_columns _ _ _) as [df1|]; [|reflexivity].
  destruct (pd.dropna _ _) as [df2|]; [|reflexivity].
  destruct (_ <? 5); [reflexivity|]. simpl. discriminate.
Qed.

(** C3, code defect.  A file with exactly the columns of the durable
    store, whatever its rows, fails the column validation of [main]:
    the validation asks for a column "device_id", which the store does
    not have, so training stops with the column-mismatch error before
    any coercion or filtering. *)
Theorem main_rejects_store_schema w body :
  main (pd.set_data_file (Some ((PStr <$> SCHEMA) :: body)) w)
  = (with_model_dir (pd.set_data_file (Some ((PStr <$> SCHEMA) :: body)) w),
     Raise (ValueError (CsvColumnMismatch Train.expected_columns (PStr <$> SCHEMA)))).
Proof. apply (main_column_mismatch _ (PStr <$> SCHEMA) body); reflexivity. Qed.

(** The row threshold, on a file that has every column [main] asks
    for: with fewer than five valid rows [main] raises the
    not-enough-data error and the persisted model is untouched; with
    five or more (in particular exactly five) it returns normally and
    the fitted model is the persisted one. *)
Lemma main_row_threshold w h body :
  data_file w = Some (h :: body) ->
  Train.issubset Train.expected_columns h = true ->
  rectangular (h :: body) ->
  let n := length (filter (fun r => valid_row to_numeric h r = true) body) in
  (n < 5 ->
     main w = (with_model_dir w, Raise (ValueError (NotEnoughData n))) /\
     model_file (fst (main w)) = model_file w) /\
  (5 <= n ->
     exists model mae,
       main w = (trained_world model mae w, Ret tt) /\
       model_file (fst (main w)) = Some model).
Proof.
  intros H Hsub Hrect n.
  pose proof (main_validated w h body H Hsub Hrect) as Hmain. cbn zeta in Hmain.
  assert (Hn : length (rows (cleaned to_numeric h body)) = n)
    by (unfold cleaned; simpl; apply length_fmap).
  rewrite Hn in Hmain. split; intros Hlt.
  - apply Nat.ltb_lt in Hlt. rewrite Hlt in Hmain. rewrite Hmain. split; reflexivity.
  - apply Nat.ltb_ge in Hlt. rewrite Hlt in Hmain. rewrite Hmain.
    eexists _, _. split; reflexivity.
Qed.

(** The split, on a file that has every column [main] asks for and at
    least five valid rows: below ten rows the model is fitted on all
    valid rows and evaluated on the same rows; from ten rows on it is
    fitted and evaluated on the two parts of
    [train_test_split(X, y, test_size=0.2, random_state=42)]. *)
Lemma main_split_boundary w h body :
  data_file w = Some (h :: body) ->
  Train.issubset Train.expected_columns h = true ->
  rectangular (h :: body) ->
  let df := cleaned to_numeric h body in
  let X := Train.features df in
  let y := Train.target df in
  let p := Train.split train_test_split df in
  let n := length (filter (fun r => valid_row to_numeric h r = true) body) in
  5 <= n ->
  main w
  = (trained_world
       (fit (Train.X_train p) (Train.y_train p))
       (mean_absolute_error (Train.y_test p)
          (predict (fit (Train.X_train p) (Train.y_train p)) (Train.X_test p)))
       w, Ret tt) /\
  (n < 10 ->
     p = {| Train.X_train := X; Train.X_test := X;
            Train.y_train := y; Train.y_test := y |}) /\
  (10 <= n -> p = train_test_split X y (1 # 5)%Q 42%Z).
Proof.
  intros H Hsub Hrect df X y p n Hn.
  assert (Hlen : length (rows df) = n)
    by (unfold df, cleaned; simpl; apply length_fmap).
  assert (Hmain : forall w', data_file w' = Some (h :: body) ->
            main w' = (trained_world
                         (fit (Train.X_train p) (Train.y_train p))
                         (mean_absolute_error (Train.y_test p)
                            (predict (fit (Train.X_train p) (Train.y_train p))
                               (Train.X_test p)))
                         w', Ret tt)).
  { intros w' H'. rewrite (main_validated w' h body H' Hsub Hrect). cbn zeta.
    fold df. rewrite Hlen.
    apply Nat.ltb_ge in Hn. rewrite Hn. reflexivity. }
  split; [apply Hmain, H|]. split.
  - intros Hlt. unfold p, Train.split. rewrite Hlen.
    apply Nat.ltb_lt in Hlt. rewrite Hlt. reflexivity.
  - intros Hge. unfold p, Train.split. rewrite Hlen.
    apply Nat.ltb_ge in Hge. rewrite Hge. reflexivity.
Qed.

(** C7, code defect.  On the durable store the row threshold is never
    reached: [main] stops at the column validation, which asks for a
    column "device_id" the store does not have (the defect of C3).  With
    fewer than five valid rows it raises the column-mismatch error, not
    the not-enough-data one; with five valid rows or more it does not
    return normally and persists no model. *)
Theorem main_store_row_threshold w body :
  data_file w = Some ((PStr <$> SCHEMA) :: body) ->
  let n := length (filter (fun r => valid_row to_numeric (PStr <$> SCHEMA) r = true) body) in
  (n < 5 ->
     main w = (with_model_dir w,
               Raise (ValueError (CsvColumnMismatch Train.expected_columns
                                    (PStr <$> SCHEMA)))) /\
     forall k, snd (main w) <> Raise (ValueError (NotEnoughData k))) /\
  (5 <= n ->
     snd (main w) <> Ret tt /\
     model_file (fst (main w)) = model_file w).
Proof.
  intros H n.
  rewrite (main_column_mismatch w (PStr <$> SCHEMA) body H eq_refl).
  split; intros _; split; try discriminate; reflexivity.
Qed.

(** C8, code defect.  On the durable store with five valid rows or
    more, below ten as well as from ten on, no partition is made:
    [main] stops at the column validation (the defect of C3) before it
    splits, fits or evaluates anything, so that no model is persisted
    and no error measure is printed. *)
Theorem main_store_never_splits w body :
  data_file w = Some ((PStr <$> SCHEMA) :: body) ->
  let n := length (filter (fun r => valid_row to_numeric (PStr <$> SCHEMA) r = true) body) in
  5 <= n ->
  main w = (with_model_dir w,
            Raise (ValueError (CsvColumnMismatch Train.expected_columns
                                 (PStr <$> SCHEMA)))) /\
  model_file (fst (main w)) = model_file w /\
  stdout (fst (main w)) = stdout w.
Proof.
  intros H n _.
  rewrite (main_column_mismatch w (PStr <$> SCHEMA) body H eq_refl).
  repeat split.
Qed.

End TrainProperties.

Lemma training_file_rectangular n : rectangular (Sample.training_file n).
Proof.
  unfold rectangular, Sample.training_file. apply Forall_replicate. reflexivity.
Qed.

(** Four readings are too few; five are enough. *)
Lemma main_row_threshold_witness :
  Train.main Sample.to_numeric Sample.train_test_split Sample.fit Sample.predict Sample.mean_absolute_error
    (Sample.with_file (Sample.training_file 4))
  = (with_model_dir (Sample.with_file (Sample.training_file 4)),
     Raise (ValueError (NotEnoughData 4))) /\
  exists model,
    model_file (fst (Train.main Sample.to_numeric Sample.train_test_split Sample.fit Sample.predict Sample.mean_absolute_error
                       (Sample.with_file (Sample.training_file 5))))
    = Some model.
Proof.
  split.
  - destruct (main_row_threshold Sample.to_numeric Sample.train_test_split Sample.fit Sample.predict Sample.mean_absolute_error
                (Sample.with_file (Sample.training_file 4)) _ _
                eq_refl eq_refl (training_file_rectangular 4)) as [H _].
    apply H. vm_compute. lia.
  - destruct (main_row_threshold Sample.to_numeric Sample.train_test_split Sample.fit Sample.predict Sample.mean_absolute_error
                (Sample.with_file (Sample.training_file 5)) _ _
                eq_refl eq_refl (training_file_rectangular 5)) as [_ H].
    destruct H as (model & mae & _ & Hm); [vm_compute; lia|].
    exists model. exact Hm.
Defined.

(** The store with four readings and the store with five. *)
Lemma main_store_row_threshold_witness :
  length (filter (fun r => valid_row Sample.to_numeric (PStr <$> SCHEMA) r = true)
            (replicate 4 Sample.reading)) = 4 /\
  Train.main Sample.to_numeric Sample.train_test_split Sample.fit
    Sample.predict Sample.mean_absolute_error
    (Sample.with_store (replicate 4 Sample.reading))
  = (with_model_dir (Sample.with_store (replicate 4 Sample.reading)),
     Raise (ValueError (CsvColumnMismatch Train.expected_columns (PStr <$> SCHEMA)))) /\
  length (filter (fun r => valid_row Sample.to_numeric (PStr <$> SCHEMA) r = true)
            (replicate 5 Sample.reading)) = 5 /\
  model_file
    (fst (Train.main Sample.to_numeric Sample.train_test_split Sample.fit
            Sample.predict Sample.mean_absolute_error
            (Sample.with_store (replicate 5 Sample.reading))))
  = None.
Proof.
  split; [reflexivity|]. split; [|split; [reflexivity|]].
  - apply (main_store_row_threshold Sample.to_numeric Sample.train_test_split
             Sample.fit Sample.predict Sample.mean_absolute_error
             (Sample.with_store (replicate 4 Sample.reading))
             (replicate 4 Sample.reading) eq_refl).
    vm_compute. lia.
  - apply (main_store_row_threshold Sample.to_numeric Sample.train_test_split
             Sample.fit Sample.predict Sample.mean_absolute_error
             (Sample.with_store (replicate 5 Sample.reading))
             (replicate 5 Sample.reading) eq_refl).
    vm_compute. lia.
Defined.

(** The store with seven readings and the store with ten. *)
Lemma main_store_never_splits_witness :
  Train.main Sample.to_numeric Sample.train_test_split Sample.fit
    Sample.predict Sample.mean_absolute_error
    (Sample.with_store (replicate 7 Sample.reading))
  = (with_model_dir (Sample.with_store (replicate 7 Sample.reading)),
     Raise (ValueError (CsvColumnMismatch Train.expected_columns (PStr <$> SCHEMA)))) /\
  Train.main Sample.to_numeric Sample.train_test_split Sample.fit
    Sample.predict Sample.mean_absolute_error
    (Sample.with_store (replicate 10 Sample.reading))
  = (with_model_dir (Sample.with_store (replicate 10 Sample.reading)),
     Raise (ValueError (CsvColumnMismatch Train.expected_columns (PStr <$> SCHEMA)))).
Proof.
  split.
  - apply (main_store_never_splits Sample.to_numeric Sample.train_test_split
             Sample.fit Sample.predict Sample.mean_absolute_error
             (Sample.with_store (replicate 7 Sample.reading))
             (replicate 7 Sample.reading) eq_refl).
    vm_compute. lia.
  - apply (main_store_never_splits Sample.to_numeric Sample.train_test_split
             Sample.fit Sample.predict Sample.mean_absolute_error
             (Sample.with_store (replicate 10 Sample.reading))
             (replicate 10 Sample.reading) eq_refl).
    vm_compute. lia.
Defined.

(** Five readings are not split; ten are.  The features and the target
    of a reading are its five numbers. *)
Lemma main_split_boundary_witness :
  Train.features (cleaned Sample.to_numeric Sample.training_header [Sample.reading])
  = [[(60 # 1)%Q; (1012 # 1)%Q; (16 # 5)%Q; (0 # 1)%Q]] /\
  Train.target (cleaned Sample.to_numeric Sample.training_header [Sample.reading])
  = [(43 # 2)%Q] /\
  (let p := Train.split Sample.train_test_split
              (cleaned Sample.to_numeric Sample.training_header
                 (replicate 5 Sample.reading)) in
   Train.X_train p = Train.X_test p /\ Train.y_train p = Train.y_test p) /\
  (let df := cleaned Sample.to_numeric Sample.training_header
               (replicate 10 Sample.reading) in
   Train.split Sample.train_test_split df
   = Sample.train_test_split (Train.features df) (Train.target df) (1 # 5)%Q 42%Z).
Proof.
  split; [reflexivity|]. split; [reflexivity|]. split.
  - destruct (main_split_boundary Sample.to_numeric Sample.train_test_split Sample.fit Sample.predict Sample.mean_absolute_error
                (Sample.with_file (Sample.training_file 5)) _ _
                eq_refl eq_refl (training_file_rectangular 5)) as (_ & H & _).
    + vm_compute. lia.
    + intros p. unfold p. rewrite H by (vm_compute; lia). split; reflexivity.
  - destruct (main_split_boundary Sample.to_numeric Sample.train_test_split Sample.fit Sample.predict Sample.mean_absolute_error
                (Sample.with_file (Sample.training_file 10)) _ _
                eq_refl eq_refl (training_file_rectangular 10)) as (_ & _ & H).
    + vm_compute. lia.
    + intros df. apply H. vm_compute. lia.
Defined.

(** ** Sorting by a key *)

Lemma insert_by_Permutation {A} strict (key : A -> Z) x l :
  insert_by strict key x l ≡ₚ x :: l.
Proof.
  induction l as [|y l IH]; simpl; [reflexivity|].
  destruct (if strict then _ else _); [reflexivity|].
  rewrite IH. apply Permutation_swap.
Qed.

Lemma isort_by_Permutation {A} strict (key : A -> Z) l :
  isort_by strict key l ≡ₚ l.
Proof.
  induction l as [|x l IH]; simpl; [reflexivity|].
  unfold isort_by in *. simpl. rewrite insert_by_Permutation, IH. reflexivity.
Qed.

Lemma insert_by_Sorted {A} strict (key : A -> Z) x l :
  Sorted (fun a b => (key a <= key b)%Z) l ->
  Sorted (fun a b => (key a <= key b)%Z) (insert_by strict key x l).
Proof.
  induction 1 as [|y l Hl IH Hy]; simpl.
  - repeat constructor.
  - destruct (if strict then _ else _) eqn:Hc.
    + constructor; [constructor; assumption|]. constructor.
      destruct strict; [apply Z.ltb_lt in Hc|apply Z.leb_le in Hc]; lia.
    + assert (Hyx : (key y <= key x)%Z)
        by (destruct strict; [apply Z.ltb_ge in Hc|apply Z.leb_gt in Hc]; lia).
      constructor; [exact IH|].
      destruct Hy as [|z l' Hz]; simpl.
      * constructor. exact Hyx.
      * destruct (if strict then (key x <? key z)%Z else (key x <=? key z)%Z);
          constructor; assumption.
Qed.

Lemma isort_by_sorts strict : sorts (isort_by strict).
Proof.
  intros key l. split; [apply isort_by_Permutation|].
  induction l as [|x l IH]; [constructor|].
  apply insert_by_Sorted, IH.
Qed.

(** The last row of an ascending list has the greatest key. *)
Lemma sorted_last_greatest {A} (key : A -> Z) l x :
  Sorted (fun a b => (key a <= key b)%Z) l -> last l = Some x ->
  forall y, y ∈ l -> (key y <= key x)%Z.
Proof.
  intros Hs Hlast y Hy.
  apply last_Some in Hlast as [l' ->].
  apply Sorted_StronglySorted in Hs; [|intros a b c; lia].
  apply elem_of_app in Hy as [Hy|Hy].
  - apply (StronglySorted_app_1_elem_of (fun a b => (key a <= key b)%Z) l' [x] y x Hs Hy).
    left.
  - apply list_elem_of_singleton in Hy as ->. lia.
Qed.

(** ** The dashboard *)

Section DashboardProperties.

Variable to_datetime : list pyval -> res (list (option Z)).
Variable sort_rows : (list pyval -> Z) -> list (list pyval) -> list (list pyval).

#[local] Abbreviation load_data := (Dashboard.load_data to_datetime).
#[local] Abbreviation poll := (Dashboard.poll to_datetime sort_rows).

(** Assigning the coerced timestamps and dropping the rows left
    missing keeps the rows whose time is not [NaT]. *)
Lemma assign_dropna_kept (body : csv) (times : list (option Z)) :
  Forall (fun r => length r = 7) body ->
  filter (fun r => forallb (fun n => pd.notna_at (PStr <$> SCHEMA) n r) ["timestamp"] = true)
         (zip_with (fun r v => <[0 := v]> r) body
            ((fun o => match o with Some t => PTimestamp t | None => PNone end) <$> times))
  = kept_rows times body.
Proof.
  intros Hbody. unfold kept_rows. revert times.
  induction Hbody as [|r body Hr _ IH]; intros times; [reflexivity|].
  destruct times as [|o times]; [reflexivity|].
  destruct r as [|c r]; [discriminate Hr|].
  cbn [fmap list_fmap zip_with zip omap list_omap].
  destruct o as [t|].
  - rewrite filter_cons_True by reflexivity. rewrite IH. reflexivity.
  - rewrite filter_cons_False by (cbn; discriminate). apply IH.
Qed.

Lemma load_data_absent w :
  data_file w = None ->
  load_data w = (w, Ret (pd.DataFrame_columns SCHEMA)).
Proof.
  intros H. destruct w as [dd f md mf out]. simpl in H. subst f. reflexivity.
Qed.

(** [load_data] on a store file: the outcome of [pd.to_datetime] on the
    timestamp column decides. *)
Lemma load_data_store w body :
  data_file w = Some ((PStr <$> SCHEMA) :: body) ->
  Forall (fun r => length r = 7) body ->
  load_data w
  = (w, match to_datetime (timestamps body) with
        | Raise e => Raise e
        | Ret times =>
            if length times =? length body
            then Ret {| columns := PStr <$> SCHEMA; rows := kept_rows times body |}
            else Raise (ValueError LengthMismatch)
        end).
Proof.
  intros H Hbody. destruct w as [dd f md mf out]. simpl in H. subst f.
  unfold Dashboard.load_data. run. unfold Dashboard.coerce_datetime.
  fold (timestamps body).
  destruct (to_datetime (timestamps body)) as [times|e]; [|reflexivity].
  unfold pd.assign_column. cbn [columns rows].
  change (pd.index_of "timestamp" (PStr <$> SCHEMA)) with (Some 0).
  cbn iota. rewrite length_fmap.
  destruct (length times =? length body); [|reflexivity].
  unfold pd.dropna. cbn.
  rewrite (assign_dropna_kept body _ Hbody). reflexivity.
Qed.

Lemma elem_of_kept_rows times body r' :
  r' ∈ kept_rows times body <->
  exists i r t,
    body !! i = Some r /\ times !! i = Some (Some t) /\
    r' = <[0 := PTimestamp t]> r.
Proof.
  unfold kept_rows. rewrite list_elem_of_omap. split.
  - intros ([r o] & Hr & Hp). destruct o as [t|]; [|discriminate].
    injection Hp as <-.
    apply list_elem_of_lookup in Hr as [i Hi].
    apply lookup_zip_with_Some in Hi as (r1 & o1 & [= <- <-] & Hb & Ht).
    eauto 6.
  - intros (i & r & t & Hb & Ht & ->). exists (r, Some t). split; [|reflexivity].
    apply list_elem_of_lookup. exists i.
    apply lookup_zip_with_Some. eauto.
Qed.

(** C9, code defect.  With the data file absent [load_data] returns
    the empty frame.  With a store file present its outcome is that of
    the one call [pd.to_datetime(df["timestamp"], errors="coerce")] on
    the whole column: when that call raises, [load_data] raises the same
    error, for there is no handler; when it returns, [load_data] returns
    the rows the call gave a time, and drops every row it gave [NaT],
    whatever the text of its timestamp. *)
Theorem load_data_column_parse w :
  (data_file w = None ->
     load_data w = (w, Ret {| columns := PStr <$> SCHEMA; rows := [] |})) /\
  (forall body,
     data_file w = Some ((PStr <$> SCHEMA) :: body) ->
     Forall (fun r => length r = 7) body ->
     (forall e, to_datetime (timestamps body) = Raise e ->
        load_data w = (w, Raise e)) /\
     (forall times,
        to_datetime (timestamps body) = Ret times ->
        length times = length body ->
        load_data w
        = (w, Ret {| columns := PStr <$> SCHEMA; rows := kept_rows times body |}) /\
        (forall r', r' ∈ kept_rows times body <->
           exists i r t,
             body !! i = Some r /\ times !! i = Some (Some t) /\
             r' = <[0 := PTimestamp t]> r))).
Proof.
  split; [apply load_data_absent|].
  intros body H Hbody. rewrite (load_data_store w body H Hbody). split.
  - intros e ->. reflexivity.
  - intros times -> Hlen. rewrite Hlen, Nat.eqb_refl.
    split; [reflexivity|]. apply elem_of_kept_rows.
Qed.

(** One pass of the realtime loop over a store file. *)
Lemma poll_store w body :
  data_file w = Some ((PStr <$> SCHEMA) :: body) ->
  Forall (fun r => length r = 7) body ->
  poll w
  = (w, match to_datetime (timestamps body) with
        | Raise e => Raise e
        | Ret times =>
            if length times =? length body
            then match kept_rows times body with
                 | [] => Ret Dashboard.WaitingForData
                 | _ :: _ =>
                     match last (sort_rows time_of (kept_rows times body)) with
                     | Some latest => Ret (Dashboard.Serving latest (predictor_of w))
                     | None => Raise IndexError
                     end
                 end
            else Raise (ValueError LengthMismatch)
        end).
Proof.
  intros H Hbody. unfold Dashboard.poll.
  unfold mbind at 1. unfold M_bind. rewrite (load_data_store w body H Hbody).
  destruct (to_datetime (timestamps body)) as [times|e]; [|reflexivity].
  destruct (length times =? length body); [|reflexivity].
  destruct w as [dd f md mf out]. simpl in H. subst f.
  destruct (kept_rows times body) as [|r rs] eqn:Hrows.
  - destruct mf; reflexivity.
  - run. unfold Predict.init, Dashboard.iloc_last, predictor_of. simpl.
    fold time_of.
    destruct mf; simpl; destruct (last _); reflexivity.
Qed.

(** C10, as amended.  On a pass of the realtime loop over a store file
    whose timestamp column [pd.to_datetime] reads: with no row left the
    loop waits for data; otherwise it serves a row of the snapshot
    whose timestamp is the greatest.  Which of several rows with that
    timestamp is served is left to the sort. *)
Theorem poll_serves_a_latest_row w body times :
  sorts sort_rows ->
  data_file w = Some ((PStr <$> SCHEMA) :: body) ->
  Forall (fun r => length r = 7) body ->
  to_datetime (timestamps body) = Ret times ->
  length times = length body ->
  (kept_rows times body = [] ->
     poll w = (w, Ret Dashboard.WaitingForData)) /\
  (kept_rows times body <> [] ->
     exists latest,
       poll w = (w, Ret (Dashboard.Serving latest (predictor_of w))) /\
       latest ∈ kept_rows times body /\
       forall r, r ∈ kept_rows times body ->
                 (time_of r <= time_of latest)%Z).
Proof.
  intros Hsort H Hbody Htimes Hlen. rewrite (poll_store w body H Hbody).
  rewrite Htimes, Hlen, Nat.eqb_refl.
  destruct (Hsort time_of (kept_rows times body)) as [Hperm Hsorted].
  split.
  - intros ->. reflexivity.
  - intros Hne. destruct (kept_rows times body) as [|r0 rs] eqn:Hrows;
      [contradiction|].
    destruct (last (sort_rows time_of (r0 :: rs))) as [latest|] eqn:Hlast.
    + exists latest. split; [reflexivity|].
      split.
      * rewrite <- Hperm. eapply last_Some_elem_of, Hlast.
      * intros r Hr. apply (sorted_last_greatest time_of _ _ Hsorted Hlast).
        rewrite Hperm. exact Hr.
    + apply last_None in Hlast. rewrite Hlast in Hperm.
      apply Permutation_nil_cons in Hperm. contradiction.
Qed.

End DashboardProperties.


Lemma mixed_rows_seven : Forall (fun r => length r = 7) Sample.mixed_rows.
Proof. repeat constructor. Qed.

Lemma offset_rows_seven : Forall (fun r => length r = 7) Sample.offset_rows.
Proof. repeat constructor. Qed.

Lemma format_rows_seven : Forall (fun r => length r = 7) Sample.format_rows.
Proof. repeat constructor. Qed.

Lemma burst_rows_seven : Forall (fun r => length r = 7) Sample.burst_rows.
Proof. repeat constructor. Qed.

(** Two stored timestamps with different UTC offsets make [load_data]
    raise; of a timestamp to the second and a later one to the
    microsecond, the row of the second is dropped. *)
Lemma load_data_column_parse_witness :
  Dashboard.load_data Sample.to_datetime (Sample.with_store Sample.offset_rows)
  = (Sample.with_store Sample.offset_rows, Raise (ValueError MixedTimezones)) /\
  Dashboard.load_data Sample.to_datetime (Sample.with_store Sample.format_rows)
  = (Sample.with_store Sample.format_rows,
     Ret {| columns := PStr <$> SCHEMA;
            rows := [[PTimestamp 1704067200000000000; PNum (43 # 2)%Q;
                      PNum (60 # 1)%Q; PNum (1012 # 1)%Q; PNum (16 # 5)%Q;
                      PNum (0 # 1)%Q; PStr "A"]] |}).
Proof.
  destruct (load_data_column_parse Sample.to_datetime
              (Sample.with_store Sample.offset_rows)) as [_ Ha].
  destruct (Ha Sample.offset_rows eq_refl offset_rows_seven) as [Hraise _].
  destruct (load_data_column_parse Sample.to_datetime
              (Sample.with_store Sample.format_rows)) as [_ Hb].
  destruct (Hb Sample.format_rows eq_refl format_rows_seven) as [_ Hret].
  split.
  - apply Hraise. vm_compute. reflexivity.
  - apply (Hret [Some 1704067200000000000%Z; None]); vm_compute; reflexivity.
Defined.

(** With a stable sort, over three stored lines of which the second
    has no time. *)
Lemma poll_serves_a_latest_row_witness :
  exists latest,
    Dashboard.poll Sample.to_datetime (isort_by false)
      (Sample.with_store Sample.mixed_rows)
    = (Sample.with_store Sample.mixed_rows,
       Ret (Dashboard.Serving latest None)) /\
    latest ∈ kept_rows [Some 1704067200000000000%Z; None; Some 1704067201000000000%Z]
               Sample.mixed_rows /\
    forall r, r ∈ kept_rows [Some 1704067200000000000%Z; None;
                              Some 1704067201000000000%Z] Sample.mixed_rows ->
              (time_of r <= time_of latest)%Z.
Proof.
  destruct (poll_serves_a_latest_row Sample.to_datetime (isort_by false)
              (Sample.with_store Sample.mixed_rows) Sample.mixed_rows
              [Some 1704067200000000000%Z; None; Some 1704067201000000000%Z]
              (isort_by_sorts false) eq_refl mixed_rows_seven)
    as [_ H]; [vm_compute; reflexivity|reflexivity|].
  apply H. vm_compute. discriminate.
Defined.

(** C10, counterexample.  Twenty readings are stored; the second to the
    ninth carry the latest timestamp.  pandas' default sort, numpy's
    quicksort, leaves the second reading last, so the loop serves the
    one of the eight that was appended first, where a stable sort ends
    with the ninth, the one appended last. *)
Lemma quicksort_latest_counterexample :
  Sample.to_datetime (timestamps Sample.burst_rows) = Ret Sample.burst_times /\
  snd (Dashboard.poll Sample.to_datetime quicksort_rows
         (Sample.with_store Sample.burst_rows))
  = Ret (Dashboard.Serving
           [PTimestamp 1704067201000000000; PNum (1 # 1)%Q; PNum (60 # 1)%Q;
            PNum (1012 # 1)%Q; PNum (16 # 5)%Q; PNum (0 # 1)%Q; PStr "A"]
           None) /\
  last (stable_sort_by time_of (kept_rows Sample.burst_times Sample.burst_rows))
  = Some [PTimestamp 1704067201000000000; PNum (8 # 1)%Q; PNum (60 # 1)%Q;
          PNum (1012 # 1)%Q; PNum (16 # 5)%Q; PNum (0 # 1)%Q; PStr "A"] /\
  ~ serves_most_recent_of_ties Sample.to_datetime quicksort_rows.
Proof.
  assert (Htimes : Sample.to_datetime (timestamps Sample.burst_rows)
                   = Ret Sample.burst_times) by (vm_compute; reflexivity).
  assert (Hpoll : snd (Dashboard.poll Sample.to_datetime quicksort_rows
                         (Sample.with_store Sample.burst_rows))
                  = Ret (Dashboard.Serving
                           [PTimestamp 1704067201000000000; PNum (1 # 1)%Q;
                            PNum (60 # 1)%Q; PNum (1012 # 1)%Q; PNum (16 # 5)%Q;
                            PNum (0 # 1)%Q; PStr "A"]
                           None)) by (vm_compute; reflexivity).
  split; [exact Htimes|]. split; [exact Hpoll|].
  split; [vm_compute; reflexivity|].
  intros H.
  specialize (H (Sample.with_store Sample.burst_rows) Sample.burst_rows
                Sample.burst_times _ None eq_refl burst_rows_seven Htimes Hpoll).
  vm_compute in H. discriminate H.
Qed.

(** On two readings with the same timestamp the segment is short
    enough for the insertion sort alone, which keeps their order: the
    loop serves the one appended last. *)
Lemma quicksort_two_tied_rows :
  snd (Dashboard.poll Sample.to_datetime quicksort_rows
         (Sample.with_store Sample.tied_rows))
  = Ret (Dashboard.Serving
           [PTimestamp 1704067200000000000; PNum (45 # 2)%Q; PNum (61 # 1)%Q;
            PNum (1011 # 1)%Q; PNum (17 # 5)%Q; PNum (0 # 1)%Q; PStr "B"]
           None).
Proof. vm_compute. reflexivity. Qed.

(** ** The retrain action *)

Section RetrainProperties.

Variable to_numeric : pyval -> option Q.
Variable train_test_split :
  list (list Q) -> list Q -> Q -> Z -> Train.partitions.
Variable fit : list (list Q) -> list Q -> LinearRegression.
Variable predict : LinearRegression -> list (list Q) -> list Q.
Variable mean_absolute_error : list Q -> list Q -> Q.

#[local] Abbreviation main :=
  (Train.main to_numeric train_test_split fit predict mean_absolute_error).
#[local] Abbreviation train_button :=
  (Dashboard.train_button to_numeric train_test_split fit predict mean_absolute_error).

(** Whatever the training process does, the branch reports success,
    shows the captured standard output and reruns; it never calls
    [st.error]. *)
Lemma train_button_always_success w :
  exists w' out,
    train_button w
    = (w', Ret [Dashboard.st_success "Model retrained successfully!";
                Dashboard.st_text out; Dashboard.st_rerun]).
Proof.
  unfold Dashboard.train_button, Dashboard.subprocess_run. run.
  destruct (main _) as [w' r]. eexists _, _. reflexivity.
Qed.

(** The retrain action leaves the persisted model alone when the
    training process fails. *)
Lemma subprocess_failure_keeps_model w w' result :
  Dashboard.subprocess_run main w = (w', Ret result) ->
  Dashboard.returncode result = 1%Z ->
  model_file w' = model_file w.
Proof.
  unfold Dashboard.subprocess_run. intros Hrun Hcode.
  pose proof (main_failure_keeps_model to_numeric train_test_split fit predict mean_absolute_error
                {| data_dir := data_dir w; data_file := data_file w;
                   model_dir := model_dir w; model_file := model_file w;
                   stdout := [] |}) as Hkeep.
  destruct (main _) as [w1 [[]|e]]; injection Hrun as <- <-.
  - discriminate Hcode.
  - simpl. apply (Hkeep e). reflexivity.
Qed.

(** C4, code defect.  With the store file the gateway writes, the
    training process exits with code 1 on the column-mismatch error;
    the retrain branch nevertheless reports "Model retrained
    successfully!", shows the empty standard output and reruns, and no
    error reaches the operator.  The persisted model is unchanged. *)
Theorem train_button_hides_failure w body :
  Dashboard.subprocess_run main (pd.set_data_file (Some ((PStr <$> SCHEMA) :: body)) w)
  = (with_model_dir (pd.set_data_file (Some ((PStr <$> SCHEMA) :: body)) w),
     Ret {| Dashboard.returncode := 1;
            Dashboard.proc_stdout := [];
            Dashboard.proc_stderr :=
              Some (ValueError (CsvColumnMismatch Train.expected_columns
                                  (PStr <$> SCHEMA))) |}) /\
  train_button (pd.set_data_file (Some ((PStr <$> SCHEMA) :: body)) w)
  = (with_model_dir (pd.set_data_file (Some ((PStr <$> SCHEMA) :: body)) w),
     Ret [Dashboard.st_success "Model retrained successfully!";
          Dashboard.st_text []; Dashboard.st_rerun]) /\
  model_file (with_model_dir (pd.set_data_file (Some ((PStr <$> SCHEMA) :: body)) w))
  = model_file w.
Proof.
  assert (Hrun :
    Dashboard.subprocess_run main (pd.set_data_file (Some ((PStr <$> SCHEMA) :: body)) w)
    = (with_model_dir (pd.set_data_file (Some ((PStr <$> SCHEMA) :: body)) w),
       Ret {| Dashboard.returncode := 1;
              Dashboard.proc_stdout := [];
              Dashboard.proc_stderr :=
                Some (ValueError (CsvColumnMismatch Train.expected_columns
                                    (PStr <$> SCHEMA))) |})).
  { unfold Dashboard.subprocess_run.
    rewrite (main_column_mismatch to_numeric train_test_split fit predict mean_absolute_error _
               (PStr <$> SCHEMA) body) by reflexivity.
    reflexivity. }
  split; [exact Hrun|]. split; [|reflexivity].
  unfold Dashboard.train_button. unfold mbind, M_bind. rewrite Hrun. reflexivity.
Qed.

End RetrainProperties.

(** ** The store file is kept well formed *)

Section StoreInvariant.

Variable utf8_decode : list Byte.byte -> option string.
Variable json_loads : string -> option pyval.

Lemma make_record_shape now payload r :
  Gateway.make_record utf8_decode json_loads now payload = Ret r ->
  exists d, r = record_of now d.
Proof.
  unfold Gateway.make_record, Gateway.decode, Gateway.loads.
  destruct (utf8_decode payload) as [s|]; [|discriminate]. run.
  destruct (json_loads s) as [v|]; [|discriminate].
  destruct v; try discriminate. intros [= <-]. eauto.
Qed.

Lemma ensure_data_file_store_ok w :
  store_ok w -> store_ok (fst (Gateway.ensure_data_file w)).
Proof.
  destruct w as [dd [f|] md mf out]; unfold store_ok; simpl; [tauto|].
  intros _. exists []. split; [reflexivity|constructor].
Qed.

Lemma on_message_store_ok now payload w :
  store_ok w ->
  store_ok (fst (Gateway.on_message utf8_decode json_loads now payload w)).
Proof.
  intros Hok.
  destruct (Gateway.make_record utf8_decode json_loads now payload) as [r|e] eqn:Hr.
  - destruct (data_dir w) eqn:Hd.
    + rewrite (on_message_stores _ _ _ _ _ _ Hr Hd).
      apply make_record_shape in Hr as [d ->].
      unfold store_ok in *. simpl.
      destruct (data_file w) as [f|].
      * destruct Hok as (body & -> & Hbody). exists (body ++ [snd <$> record_of now d]).
        split; [reflexivity|]. apply Forall_app. split; [exact Hbody|].
        repeat constructor.
      * exists [snd <$> record_of now d]. split; [reflexivity|]. repeat constructor.
    + rewrite (on_message_no_directory _ _ _ _ _ _ Hr Hd). exact Hok.
  - rewrite (on_message_rejects _ _ _ _ _ _ Hr). exact Hok.
Qed.

End StoreInvariant.

(** * Further properties of the gateway *)

Lemma ensure_data_file_effect w :
  data_dir (fst (Gateway.ensure_data_file w)) = true /\
  data_file (fst (Gateway.ensure_data_file w))
  = Some (default [PStr <$> SCHEMA] (data_file w)).
Proof. destruct w as [dd [f|] md mf out]; split; reflexivity. Qed.

(** X1.  [ensure_data_file] never raises and always leaves the data
    directory in place.  An existing data file is kept line for line;
    an absent one is created with the schema header alone.  Nothing
    else changes, and a second call changes nothing at all. *)
Theorem ensure_data_file_idempotent w :
  let w' := fst (Gateway.ensure_data_file w) in
  snd (Gateway.ensure_data_file w) = Ret tt /\
  data_dir w' = true /\
  data_file w' = Some (default [PStr <$> SCHEMA] (data_file w)) /\
  model_dir w' = model_dir w /\ model_file w' = model_file w /\
  stdout w' = stdout w /\
  Gateway.ensure_data_file w' = (w', Ret tt).
Proof.
  destruct w as [dd [f|] md mf out]; cbn; repeat split; reflexivity.
Qed.

Section GatewayRuns.

Variable utf8_decode : list Byte.byte -> option string.
Variable json_loads : string -> option pyval.

#[local] Abbreviation on_message := (Gateway.on_message utf8_decode json_loads).
#[local] Abbreviation make_record := (Gateway.make_record utf8_decode json_loads).
#[local] Abbreviation run := (gateway_run utf8_decode json_loads).
#[local] Abbreviation accepted := (accepted_rows utf8_decode json_loads).

Lemma record_of_columns now d :
  (PStr ∘ fst) <$> record_of now d = PStr <$> SCHEMA.
Proof. reflexivity. Qed.

Lemma on_message_data_dir now payload w :
  data_dir (fst (on_message now payload w)) = data_dir w.
Proof.
  destruct (make_record now payload) as [r|e] eqn:Hr.
  - destruct (data_dir w) eqn:Hd.
    + rewrite (on_message_stores _ _ _ _ _ _ Hr Hd). exact Hd.
    + rewrite (on_message_no_directory _ _ _ _ _ _ Hr Hd). exact Hd.
  - rewrite (on_message_rejects _ _ _ _ _ _ Hr). reflexivity.
Qed.

(** X2.  [on_message] touches the data file and the console only: the
    directories and the persisted model are as before, and exactly one
    line is printed, whatever the payload. *)
Theorem on_message_frame now payload w :
  let w' := fst (on_message now payload w) in
  data_dir w' = data_dir w /\
  model_dir w' = model_dir w /\
  model_file w' = model_file w /\
  exists line, stdout w' = stdout w ++ [line].
Proof.
  destruct (make_record now payload) as [r|e] eqn:Hr.
  - destruct (data_dir w) eqn:Hd.
    + rewrite (on_message_stores _ _ _ _ _ _ Hr Hd). cbn.
      rewrite Hd. repeat split. eauto.
    + rewrite (on_message_no_directory _ _ _ _ _ _ Hr Hd). cbn.
      rewrite Hd. repeat split. eauto.
  - rewrite (on_message_rejects _ _ _ _ _ _ Hr). cbn. repeat split. eauto.
Qed.

(** X3.  [on_message] does not create the data directory: while it is
    missing every message, well formed or not, ends in a logged error
    and neither creates nor changes the data file. *)
Theorem on_message_without_directory now payload w :
  data_dir w = false ->
  exists e,
    on_message now payload w = (printed (ErrorProcessingMessage e) w, Ret tt).
Proof.
  intros Hd. destruct (make_record now payload) as [r|e] eqn:Hr.
  - exists OSError. apply (on_message_no_directory _ _ _ _ _ r); assumption.
  - exists e. apply on_message_rejects; assumption.
Qed.

Lemma gateway_run_cons now payload msgs w :
  run ((now, payload) :: msgs) w = run msgs (fst (on_message now payload w)).
Proof. reflexivity. Qed.

Lemma accepted_rows_cons now payload msgs :
  accepted ((now, payload) :: msgs)
  = match make_record now payload with
    | Ret r => (snd <$> r) :: accepted msgs
    | Raise _ => accepted msgs
    end.
Proof.
  unfold accepted_rows. cbn [omap list_omap fst snd].
  destruct (make_record now payload); reflexivity.
Qed.

Lemma gateway_run_data_dir msgs w :
  data_dir (run msgs w) = data_dir w.
Proof.
  revert w. induction msgs as [|[now payload] msgs IH]; intros w; [reflexivity|].
  rewrite gateway_run_cons, IH.
  apply on_message_data_dir.
Qed.

Lemma on_message_data_file now payload w :
  data_dir w = true ->
  data_file (fst (on_message now payload w))
  = match make_record now payload with
    | Ret r => Some (default [PStr <$> SCHEMA] (data_file w) ++ [snd <$> r])
    | Raise _ => data_file w
    end.
Proof.
  intros Hd. destruct (make_record now payload) as [r|e] eqn:Hr.
  - rewrite (on_message_stores _ _ _ _ _ _ Hr Hd).
    apply make_record_shape in Hr as [d ->]. cbn.
    destruct (data_file w); reflexivity.
  - rewrite (on_message_rejects _ _ _ _ _ _ Hr). reflexivity.
Qed.

Lemma gateway_run_data_file msgs w :
  data_dir w = true ->
  data_file (run msgs w)
  = match accepted msgs with
    | [] => data_file w
    | _ :: _ => Some (default [PStr <$> SCHEMA] (data_file w) ++ accepted msgs)
    end.
Proof.
  revert w. induction msgs as [|[now payload] msgs IH]; intros w Hd; [reflexivity|].
  rewrite gateway_run_cons, accepted_rows_cons.
  assert (Hd' : data_dir (fst (on_message now payload w)) = true).
  { rewrite <- Hd. apply on_message_data_dir. }
  rewrite (IH _ Hd'), (on_message_data_file now payload w Hd).
  destruct (make_record now payload) as [r|e]; [|reflexivity].
  destruct (accepted msgs) as [|l ls]; [reflexivity|].
  cbn [default]. unfold id. rewrite <- app_assoc. reflexivity.
Qed.


Lemma gateway_run_store_ok msgs w :
  store_ok w -> store_ok (run msgs w).
Proof.
  revert w. induction msgs as [|[now payload] msgs IH]; intros w H; [exact H|].
  rewrite gateway_run_cons. apply IH, on_message_store_ok, H.
Qed.

Lemma session_file_shape msgs w :
  store_ok w ->
  exists body,
    data_file (run msgs (fst (Gateway.ensure_data_file w)))
    = Some ((PStr <$> SCHEMA) :: body) /\
    Forall (fun r => length r = 7) body.
Proof.
  intros Hok.
  pose proof (gateway_run_store_ok msgs _ (ensure_data_file_store_ok w Hok)) as Hfinal.
  unfold store_ok in Hfinal.
  destruct (ensure_data_file_effect w) as [Hd Hf].
  rewrite (gateway_run_data_file msgs _ Hd), Hf in *.
  destruct (accepted msgs) as [|l ls];
    destruct Hfinal as (body & -> & Hlen); eauto.
Qed.


End GatewayRuns.

(** A machine that lost its data directory. *)
Lemma on_message_without_directory_witness :
  exists e,
    Gateway.on_message Sample.utf8_decode Sample.json_loads
      "2024-01-01T00:00:00" Sample.empty_object
      {| data_dir := false; data_file := None; model_dir := false;
         model_file := None; stdout := [] |}
    = (printed (ErrorProcessingMessage e)
         {| data_dir := false; data_file := None; model_dir := false;
            model_file := None; stdout := [] |}, Ret tt).
Proof.
  apply (on_message_without_directory Sample.utf8_decode Sample.json_loads).
  reflexivity.
Defined.


(** * Further properties of the training pipeline *)

Lemma existsb_is_label name cols :
  existsb (pd.is_label name) cols = true <-> PStr name ∈ cols.
Proof.
  rewrite existsb_exists. split.
  - intros (c & Hc & Hl). apply list_elem_of_In in Hc.
    destruct c; try discriminate. apply String.eqb_eq in Hl. subst. exact Hc.
  - intros H. exists (PStr name). split; [apply list_elem_of_In, H|].
    apply String.eqb_refl.
Qed.

Lemma issubset_false names cols :
  Train.issubset names cols = false <-> exists n, n ∈ names /\ PStr n ∉ cols.
Proof.
  unfold Train.issubset. induction names as [|m names IH]; cbn.
  - split; [discriminate|]. intros (n & Hn & _). inversion Hn.
  - rewrite andb_false_iff, IH. split.
    + intros [Hm|(n & Hn & Hnot)].
      * exists m. split; [left|]. rewrite <- existsb_is_label, Hm. discriminate.
      * exists n. split; [right; exact Hn|exact Hnot].
    + intros (n & Hn & Hnot). apply elem_of_cons in Hn as [->|Hn].
      * left. destruct (existsb (pd.is_label m) cols) eqn:He; [|reflexivity].
        apply existsb_is_label in He. contradiction.
      * right. exists n. split; assumption.
Qed.

Section TrainRuns.

Variable utf8_decode : list Byte.byte -> option string.
Variable json_loads : string -> option pyval.
Variable to_numeric : pyval -> option Q.
Variable train_test_split :
  list (list Q) -> list Q -> Q -> Z -> Train.partitions.
Variable fit : list (list Q) -> list Q -> LinearRegression.
Variable predict : LinearRegression -> list (list Q) -> list Q.
Variable mean_absolute_error : list Q -> list Q -> Q.

#[local] Abbreviation main :=
  (Train.main to_numeric train_test_split fit predict mean_absolute_error).
#[local] Abbreviation run := (gateway_run utf8_decode json_loads).

#[local] Arguments Train.issubset : simpl never.
#[local] Arguments Train.coerce_columns : simpl never.
#[local] Arguments pd.dropna : simpl never.
#[local] Arguments Train.split : simpl never.
#[local] Arguments Nat.ltb : simpl never.

Lemma gateway_run_model_file msgs w :
  model_file (run msgs w) = model_file w.
Proof.
  revert w. induction msgs as [|[now payload] msgs IH]; intros w; [reflexivity|].
  rewrite gateway_run_cons, IH.
  destruct (Gateway.make_record utf8_decode json_loads now payload) as [r|e] eqn:Hr.
  - destruct (data_dir w) eqn:Hd.
    + rewrite (on_message_stores _ _ _ _ _ _ Hr Hd). reflexivity.
    + rewrite (on_message_no_directory _ _ _ _ _ _ Hr Hd). reflexivity.
  - rewrite (on_message_rejects _ _ _ _ _ _ Hr). reflexivity.
Qed.

Lemma coerce_columns_raises names df e :
  Train.coerce_columns to_numeric names df = Raise e -> exists k, e = KeyError k.
Proof.
  revert df. induction names as [|n names IH]; intros df; [discriminate|].
  change (Train.coerce_columns to_numeric (n :: names) df)
    with (match pd.map_column n (Train.coerce to_numeric) df with
          | Ret df' => Train.coerce_columns to_numeric names df'
          | Raise e => Raise e
          end).
  unfold pd.map_column.
  destruct (pd.index_of n (columns df)); [apply IH|].
  intros [= <-]. eauto.
Qed.

Lemma dropna_raises names df e :
  pd.dropna names df = Raise e -> exists k, e = KeyError k.
Proof.
  unfold pd.dropna. destruct (list_find _ names) as [[i n]|]; [|discriminate].
  intros [= <-]. eauto.
Qed.

(** X6.  The column validation of [main] is a test of membership: on
    a file with a header line, [main] raises the column-mismatch error
    exactly when some required name labels none of the columns of the
    file.  The order of the columns and any further columns play no
    part. *)
Theorem main_column_validation w h body :
  data_file w = Some (h :: body) ->
  snd (main w) = Raise (ValueError (CsvColumnMismatch Train.expected_columns h))
  <-> exists n, n ∈ Train.expected_columns /\ PStr n ∉ h.
Proof.
  intros H. rewrite <- issubset_false. split.
  - intros Hraise. destruct (Train.issubset Train.expected_columns h) eqn:Hsub;
      [|reflexivity].
    destruct w as [dd f md mf out]. simpl in H. subst f.
    revert Hraise. unfold Train.main. run. rewrite Hsub. simpl.
    destruct (Train.coerce_columns _ _ _) as [df1|e1] eqn:H1; simpl.
    + destruct (pd.dropna _ _) as [df2|e2] eqn:H2; simpl.
      * destruct (_ <? 5); simpl; discriminate.
      * apply dropna_raises in H2 as [k ->]. discriminate.
    + apply coerce_columns_raises in H1 as [k ->]. discriminate.
  - intros Hsub. rewrite (main_column_mismatch _ _ _ _ _ w h body H Hsub). reflexivity.
Qed.

(** X7.  Training on what the gateway collects never succeeds: from a
    machine whose data file is absent or a store file, after
    [ensure_data_file] and any session of messages, [main] stops at the
    column validation, and the persisted model is the one the machine
    started with. *)
Theorem gateway_store_never_trains msgs w :
  store_ok w ->
  let w' := run msgs (fst (Gateway.ensure_data_file w)) in
  main w'
  = (with_model_dir w',
     Raise (ValueError (CsvColumnMismatch Train.expected_columns (PStr <$> SCHEMA)))) /\
  model_file (fst (main w')) = model_file w.
Proof.
  intros Hok w'.
  destruct (session_file_shape utf8_decode json_loads msgs w Hok)
    as (body & Hfile & _).
  fold w' in Hfile.
  rewrite (main_column_mismatch to_numeric train_test_split fit predict mean_absolute_error w' _ body Hfile)
    by reflexivity.
  split; [reflexivity|]. cbn. unfold w'. rewrite gateway_run_model_file.
  destruct w as [dd [f|] md mf out]; reflexivity.
Qed.

(** X8.  [main] without a data file raises [FileNotFoundError] and
    leaves the machine exactly as it was, the model directory not
    created; on a data file without any line it creates the model
    directory and then fails in [read_csv]. *)
Theorem main_missing_or_empty_file w :
  (data_file w = None -> main w = (w, Raise FileNotFoundError)) /\
  (data_file w = Some [] -> main w = (with_model_dir w, Raise EmptyDataError)).
Proof.
  split; intros H; destruct w as [dd f md mf out]; simpl in H; subst f; reflexivity.
Qed.

(** X9.  [main] never writes the data file or the data directory, and
    it only adds to the console.  When it raises it has printed nothing
    and the persisted model is untouched: at most the model directory
    was created. *)
Theorem main_writes_models_only w :
  let w' := fst (main w) in
  data_file w' = data_file w /\ data_dir w' = data_dir w /\
  (exists out, stdout w' = stdout w ++ out) /\
  (forall e, snd (main w) = Raise e ->
     model_file w' = model_file w /\ stdout w' = stdout w).
Proof.
  destruct w as [dd [[|h body]|] md mf out];
    try (cbn; repeat split; try (exists []; rewrite app_nil_r); reflexivity).
  unfold Train.main. run.
  destruct (Train.issubset _ _); simpl;
    [|repeat split; try (exists []; rewrite app_nil_r); reflexivity].
  destruct (Train.coerce_columns _ _ _) as [df1|];
    [|repeat split; try (exists []; rewrite app_nil_r); reflexivity].
  destruct (pd.dropna _ _) as [df2|];
    [|repeat split; try (exists []; rewrite app_nil_r); reflexivity].
  destruct (_ <? 5);
    [repeat split; try (exists []; rewrite app_nil_r); reflexivity|].
  simpl. repeat split; try discriminate.
  rewrite <- !app_assoc. eauto.
Qed.

(** X10.  When [main] returns normally the model file exists, so
    [TemperaturePredictor()] on the resulting machine loads exactly the
    model that was dumped, and the three report lines were printed. *)
Theorem main_success_enables_predictor w :
  snd (main w) = Ret tt ->
  exists model mae,
    model_file (fst (main w)) = Some model /\
    Predict.init (fst (main w))
    = (fst (main w), Ret {| Predict.model := model |}) /\
    stdout (fst (main w))
    = stdout w ++ [ModelTrainedAndSaved; MeanAbsoluteError mae; BaselineNote].
Proof.
  destruct w as [dd [[|h body]|] md mf out]; try discriminate.
  unfold Train.main. run.
  destruct (Train.issubset _ _); simpl; [|discriminate].
  destruct (Train.coerce_columns _ _ _) as [df1|]; [|discriminate].
  destruct (pd.dropna _ _) as [df2|]; [|discriminate].
  destruct (_ <? 5); [discriminate|].
  simpl. intros _. eexists _, _. rewrite <- !app_assoc. repeat split.
Qed.

(** X11.  What [main] trains on, for a file that passes the column
    validation: the columns are those of the file, no row is added,
    every row kept has a number in each feature column and in the
    target column, and its cells in every other named column are those
    of a row of the file. *)
Theorem main_cleaning h body df :
  Train.issubset Train.expected_columns h = true ->
  rectangular (h :: body) ->
  (Train.coerce_columns to_numeric (Train.FEATURES ++ [Train.TARGET])
     {| columns := h; rows := body |}
   ≫= pd.dropna (Train.FEATURES ++ [Train.TARGET])) = Ret df ->
  columns df = h /\
  length (rows df) <= length body /\
  forall r', r' ∈ rows df ->
    length r' = length h /\
    (forall n, n ∈ Train.FEATURES ++ [Train.TARGET] ->
       exists i q, pd.index_of n h = Some i /\ pd.cell r' i = PNum q) /\
    (exists r, r ∈ body /\
       forall m j, pd.index_of m h = Some j ->
                   m ∉ Train.FEATURES ++ [Train.TARGET] ->
                   pd.cell r' j = pd.cell r j).
Proof.
  intros Hsub Hrect Hdf.
  rewrite (coerce_dropna_cleaned to_numeric h body Hsub Hrect) in Hdf.
  injection Hdf as <-. unfold cleaned. cbn [columns rows].
  split; [reflexivity|]. split.
  - rewrite length_fmap. apply length_filter.
  - intros r' Hr'. apply list_elem_of_fmap in Hr' as (r & -> & Hr).
    apply list_elem_of_filter in Hr as [Hvalid Hr].
    assert (Hlen : length r = length h).
    { simpl in Hrect. rewrite Forall_forall in Hrect. apply Hrect, Hr. }
    split; [|split].
    + unfold coerce_row. rewrite length_foldl_coerce_at. exact Hlen.
    + intros n Hn.
      destruct (issubset_index _ _ Hsub n (expected_has_training_names n Hn))
        as [i Hi].
      unfold valid_row in Hvalid. rewrite forallb_forall in Hvalid.
      specialize (Hvalid n (proj1 (list_elem_of_In _ _) Hn)).
      rewrite Hi in Hvalid. apply bool_decide_eq_true in Hvalid as [q Hq].
      exists i, q. split; [exact Hi|].
      unfold coerce_row.
      rewrite (cell_foldl_coerced to_numeric h _ r n i training_names_NoDup Hlen Hi Hn).
      unfold Train.coerce. rewrite Hq. reflexivity.
    + exists r. split; [exact Hr|]. intros m j Hj Hm.
      apply (cell_foldl_other to_numeric h _ r m j Hj Hm).
Qed.

End TrainRuns.

(** The required columns in another order with one more column pass
    the validation; the columns of the store do not, for want of
    "device_id". *)
Lemma main_column_validation_witness :
  snd (Train.main Sample.to_numeric Sample.train_test_split Sample.fit
         Sample.predict Sample.mean_absolute_error
         (Sample.with_file [reverse Sample.training_header ++ [PStr "location"]]))
  <> Raise (ValueError (CsvColumnMismatch Train.expected_columns
                          (reverse Sample.training_header ++ [PStr "location"]))) /\
  exists n, n ∈ Train.expected_columns /\ PStr n ∉ PStr <$> SCHEMA.
Proof.
  split.
  - intros H.
    apply (main_column_validation Sample.to_numeric Sample.train_test_split
             Sample.fit Sample.predict Sample.mean_absolute_error
             (Sample.with_file [reverse Sample.training_header ++ [PStr "location"]])
             _ [] eq_refl) in H.
    destruct H as (n & Hn & Hnot). apply Hnot.
    revert Hn. unfold Train.expected_columns, Train.FEATURES, Train.TARGET. cbn.
    rewrite !elem_of_cons, elem_of_nil.
    intros [->|[->|[->|[->|[->|[->|[->|[]]]]]]]];
      auto 12.
  - apply (main_column_validation Sample.to_numeric Sample.train_test_split
             Sample.fit Sample.predict Sample.mean_absolute_error
             (Sample.with_store []) (PStr <$> SCHEMA) [] eq_refl).
    reflexivity.
Defined.

(** A new machine, a session of three messages, then training. *)
Lemma gateway_store_never_trains_witness :
  snd (Train.main Sample.to_numeric Sample.train_test_split Sample.fit Sample.predict Sample.mean_absolute_error
         (gateway_run Sample.utf8_decode Sample.json_loads sample_session
            (fst (Gateway.ensure_data_file Sample.fresh))))
  = Raise (ValueError (CsvColumnMismatch Train.expected_columns (PStr <$> SCHEMA))).
Proof.
  destruct (gateway_store_never_trains Sample.utf8_decode Sample.json_loads
              Sample.to_numeric Sample.train_test_split Sample.fit Sample.predict Sample.mean_absolute_error
              sample_session Sample.fresh I) as [H _].
  rewrite H. reflexivity.
Defined.

(** No file, and a file of no lines. *)
Lemma main_missing_or_empty_file_witness :
  Train.main Sample.to_numeric Sample.train_test_split Sample.fit Sample.predict Sample.mean_absolute_error Sample.fresh
  = (Sample.fresh, Raise FileNotFoundError) /\
  Train.main Sample.to_numeric Sample.train_test_split Sample.fit Sample.predict Sample.mean_absolute_error (Sample.with_file [])
  = (with_model_dir (Sample.with_file []), Raise EmptyDataError).
Proof.
  split.
  - apply (main_missing_or_empty_file Sample.to_numeric Sample.train_test_split
             Sample.fit Sample.predict Sample.mean_absolute_error Sample.fresh). reflexivity.
  - apply (main_missing_or_empty_file Sample.to_numeric Sample.train_test_split
             Sample.fit Sample.predict Sample.mean_absolute_error (Sample.with_file [])). reflexivity.
Defined.

(** Four readings: training fails and writes nothing. *)
Lemma main_writes_models_only_witness :
  model_file (fst (Train.main Sample.to_numeric Sample.train_test_split Sample.fit Sample.predict Sample.mean_absolute_error
                     (Sample.with_file (Sample.training_file 4)))) = None /\
  stdout (fst (Train.main Sample.to_numeric Sample.train_test_split Sample.fit Sample.predict Sample.mean_absolute_error
                 (Sample.with_file (Sample.training_file 4)))) = [].
Proof.
  destruct (main_writes_models_only Sample.to_numeric Sample.train_test_split Sample.fit Sample.predict Sample.mean_absolute_error
              (Sample.with_file (Sample.training_file 4))) as (_ & _ & _ & H).
  apply (H (ValueError (NotEnoughData 4))). reflexivity.
Defined.

(** Five readings: training succeeds and the predictor loads. *)
Lemma main_success_enables_predictor_witness :
  exists model,
    snd (Predict.init
           (fst (Train.main Sample.to_numeric Sample.train_test_split Sample.fit Sample.predict Sample.mean_absolute_error
                   (Sample.with_file (Sample.training_file 5)))))
    = Ret {| Predict.model := model |}.
Proof.
  destruct (main_success_enables_predictor Sample.to_numeric Sample.train_test_split
              Sample.fit Sample.predict Sample.mean_absolute_error (Sample.with_file (Sample.training_file 5)) eq_refl)
    as (model & mae & _ & Hinit & _).
  exists model. rewrite Hinit. reflexivity.
Defined.

(** Five readings and a line without numbers. *)
Lemma main_cleaning_witness :
  let body := replicate 5 Sample.reading
              ++ [[PStr "2024-01-01T00:00:01"; PNone; PStr "wet"; PNone; PNone;
                   PNone; PStr "A"]] in
  let df := cleaned Sample.to_numeric Sample.training_header body in
  length (rows df) <= 6 /\
  forall r', r' ∈ rows df -> length r' = 7.
Proof.
  intros body df.
  destruct (main_cleaning Sample.to_numeric Sample.training_header body df)
    as (_ & Hlen & Hrows).
  - reflexivity.
  - unfold body. simpl. repeat constructor.
  - reflexivity.
  - split; [exact Hlen|]. intros r' Hr'. apply (Hrows r' Hr').
Defined.

(** * Further properties of the dashboard *)

(** X12.  One push keeps the buffer a suffix of what it held followed
    by the new item: the item arrives last, the earlier ones keep
    their order, below five items nothing is evicted, and from five on
    the buffer holds exactly five, also when it started out longer. *)
Theorem buffer_push_suffix (x : pyval) (b : list pyval) :
  Dashboard.buffer_push x b `suffix_of` b ++ [x] /\
  last (Dashboard.buffer_push x b) = Some x /\
  length (Dashboard.buffer_push x b) <= 5 /\
  (length b < 5 -> Dashboard.buffer_push x b = b ++ [x]) /\
  (4 <= length b -> length (Dashboard.buffer_push x b) = 5).
Proof.
  unfold Dashboard.buffer_push, Dashboard.slice_last.
  split; [apply suffix_drop|]. split; [|split; [|split]].
  - rewrite length_app. cbn.
    replace (length b + 1 - 5) with (length b - 4) by lia.
    rewrite drop_app_le by lia. apply last_snoc.
  - rewrite length_drop, length_app. cbn. lia.
  - intros H. rewrite length_app. cbn.
    replace (length b + 1 - 5) with 0 by lia. reflexivity.
  - intros H. rewrite length_drop, length_app. cbn. lia.
Qed.

Section DashboardMessages.

Variable utf8_decode : list Byte.byte -> option string.
Variable json_loads : string -> option pyval.

#[local] Abbreviation on_mqtt_message :=
  (Dashboard.on_mqtt_message utf8_decode json_loads).

(** X13.  Unlike the gateway's callback, [on_mqtt_message] can raise:
    its handler decodes the payload a second time, so bytes that are
    not UTF-8 raise [UnicodeDecodeError] out of the callback and the
    buffer is left alone.  Any payload that is text is pushed, as the
    decoded JSON value or, when it is not JSON, as the text. *)
Theorem on_mqtt_message_outcome m buf :
  (utf8_decode m = None ->
     on_mqtt_message m buf = (buf, Raise UnicodeDecodeError)) /\
  (forall s, utf8_decode m = Some s ->
     on_mqtt_message m buf
     = (Dashboard.buffer_push (default (PStr s) (json_loads s)) buf, Ret tt)).
Proof.
  unfold Dashboard.on_mqtt_message, Dashboard.decode, Dashboard.loads, res_try.
  split.
  - intros ->. reflexivity.
  - intros s ->. cbn. destruct (json_loads s); reflexivity.
Qed.

End DashboardMessages.

(** Bytes that are not text, and text that is not JSON. *)
Lemma on_mqtt_message_outcome_witness :
  Dashboard.on_mqtt_message Sample.utf8_decode Sample.json_loads Sample.not_utf8 []
  = ([], Raise UnicodeDecodeError) /\
  Dashboard.on_mqtt_message Sample.utf8_decode Sample.json_loads Sample.not_json []
  = ([PStr "21.5 degrees"], Ret tt).
Proof.
  split.
  - apply (on_mqtt_message_outcome Sample.utf8_decode Sample.json_loads). reflexivity.
  - apply (on_mqtt_message_outcome Sample.utf8_decode Sample.json_loads
             Sample.not_json [] ) with (s := "21.5 degrees"). reflexivity.
Defined.

(** A buffer of two items, and one that is full. *)
Lemma buffer_push_suffix_witness :
  Dashboard.buffer_push (PStr "c") [PStr "a"; PStr "b"]
  = [PStr "a"; PStr "b"; PStr "c"] /\
  length (Dashboard.buffer_push (PStr "f")
            [PStr "a"; PStr "b"; PStr "c"; PStr "d"; PStr "e"]) = 5.
Proof.
  split.
  - apply (buffer_push_suffix (PStr "c") [PStr "a"; PStr "b"]). cbn. lia.
  - apply (buffer_push_suffix (PStr "f")
             [PStr "a"; PStr "b"; PStr "c"; PStr "d"; PStr "e"]). cbn. lia.
Defined.

Section DashboardReads.

Variable to_datetime : list pyval -> res (list (option Z)).
Variable sort_rows : (list pyval -> Z) -> list (list pyval) -> list (list pyval).

#[local] Abbreviation load_data := (Dashboard.load_data to_datetime).
#[local] Abbreviation poll := (Dashboard.poll to_datetime sort_rows).

#[local] Arguments pd.dropna : simpl never.
#[local] Arguments pd.assign_column : simpl never.
#[local] Arguments pd.column : simpl never.
#[local] Arguments Dashboard.sort_values : simpl never.
#[local] Arguments Dashboard.iloc_last : simpl never.
#[local] Arguments Dashboard.empty : simpl never.

Lemma load_data_world w : fst (load_data w) = w.
Proof.
  destruct w as [dd [[|h body]|] md mf out]; try reflexivity.
  unfold Dashboard.load_data. run.
  destruct (pd.column _ _) as [col|]; [|reflexivity].
  destruct (Dashboard.coerce_datetime _ _) as [times|]; [|reflexivity].
  destruct (pd.assign_column _ _ _) as [df1|]; [|reflexivity].
  destruct (pd.dropna _ _) as [df2|]; reflexivity.
Qed.

Lemma poll_after_load w :
  poll w
  = match snd (load_data w) with
    | Raise e => (w, Raise e)
    | Ret df =>
        if Dashboard.empty df then (w, Ret Dashboard.WaitingForData)
        else (w, (df' ← Dashboard.sort_values sort_rows "timestamp" df;
                   latest ← Dashboard.iloc_last df';
                   mret (Dashboard.Serving latest (predictor_of w))))
    end.
Proof.
  unfold Dashboard.poll. unfold mbind at 1. unfold M_bind.
  pose proof (load_data_world w) as Hw.
  destruct (load_data w) as [w1 [df|e]]; cbn in Hw; subst w1; [|reflexivity].
  destruct w as [dd f md mf out]. run. unfold Predict.init, predictor_of. cbn.
  destruct mf; cbn; destruct (Dashboard.empty df); try reflexivity;
    destruct (Dashboard.sort_values _ _ _) as [df'|]; try reflexivity;
    cbn; destruct (Dashboard.iloc_last df'); reflexivity.
Qed.

(** X15.  Reading never writes: whatever the data file holds, and
    whether they return or raise, [load_data] and a pass of the realtime
    loop leave the machine exactly as it was. *)
Theorem dashboard_reads_only w :
  fst (load_data w) = w /\ fst (poll w) = w.
Proof.
  split; [apply load_data_world|].
  rewrite poll_after_load.
  destruct (snd (load_data w)) as [df|e]; [|reflexivity].
  destruct (Dashboard.empty df); reflexivity.
Qed.

(** X16.  The realtime loop has no handler around [load_data]: a data
    file without any line raises [EmptyDataError] out of a pass, and a
    file whose header has no "timestamp" column raises [KeyError]. *)
Theorem poll_propagates_load_errors w :
  (data_file w = Some [] ->
     load_data w = (w, Raise EmptyDataError) /\
     poll w = (w, Raise EmptyDataError)) /\
  (forall h body,
     data_file w = Some (h :: body) -> pd.index_of "timestamp" h = None ->
     load_data w = (w, Raise (KeyError "timestamp")) /\
     poll w = (w, Raise (KeyError "timestamp"))).
Proof.
  split.
  - intros H.
    assert (Hload : load_data w = (w, Raise EmptyDataError)).
    { destruct w as [dd f md mf out]. simpl in H. subst f. reflexivity. }
    split; [exact Hload|]. rewrite poll_after_load, Hload. reflexivity.
  - intros h body H Hidx.
    assert (Hload : load_data w = (w, Raise (KeyError "timestamp"))).
    { destruct w as [dd f md mf out]. simpl in H. subst f.
      unfold Dashboard.load_data. run. unfold pd.column. cbn. rewrite Hidx.
      reflexivity. }
    split; [exact Hload|]. rewrite poll_after_load, Hload. reflexivity.
Qed.

(** X17.  Before any data: without a data file a pass waits for data,
    and so does a pass right after the gateway's [ensure_data_file]
    created the file with the header alone. *)
Theorem poll_waits_before_data w :
  to_datetime [] = Ret [] ->
  data_file w = None ->
  poll w = (w, Ret Dashboard.WaitingForData) /\
  poll (fst (Gateway.ensure_data_file w))
  = (fst (Gateway.ensure_data_file w), Ret Dashboard.WaitingForData).
Proof.
  intros Hlen H. split.
  - rewrite poll_after_load.
    rewrite (load_data_absent to_datetime w H). reflexivity.
  - destruct (ensure_data_file_effect w) as [_ Hf]. rewrite H in Hf.
    rewrite (poll_store to_datetime sort_rows _ [] Hf); [|constructor].
    cbn. rewrite Hlen. reflexivity.
Qed.

End DashboardReads.

(** A file of no lines, and a file without a timestamp column. *)
Lemma poll_propagates_load_errors_witness :
  Dashboard.poll Sample.to_datetime (isort_by false) (Sample.with_file [])
  = (Sample.with_file [], Raise EmptyDataError) /\
  Dashboard.poll Sample.to_datetime (isort_by false)
    (Sample.with_file [[PStr "time"; PStr "temperature"]])
  = (Sample.with_file [[PStr "time"; PStr "temperature"]],
     Raise (KeyError "timestamp")).
Proof.
  split.
  - apply (poll_propagates_load_errors Sample.to_datetime (isort_by false)
             (Sample.with_file [])). reflexivity.
  - destruct (poll_propagates_load_errors Sample.to_datetime (isort_by false)
                (Sample.with_file [[PStr "time"; PStr "temperature"]])) as [_ H].
    apply (H [PStr "time"; PStr "temperature"] []); reflexivity.
Defined.

(** A new machine, before and after the gateway starts. *)
Lemma poll_waits_before_data_witness :
  Dashboard.poll Sample.to_datetime (isort_by false) Sample.fresh
  = (Sample.fresh, Ret Dashboard.WaitingForData) /\
  Dashboard.poll Sample.to_datetime (isort_by false)
    (fst (Gateway.ensure_data_file Sample.fresh))
  = (fst (Gateway.ensure_data_file Sample.fresh), Ret Dashboard.WaitingForData).
Proof.
  apply (poll_waits_before_data Sample.to_datetime (isort_by false) Sample.fresh
           eq_refl eq_refl).
Defined.

Section RetrainRuns.

Variable to_numeric : pyval -> option Q.
Variable train_test_split :
  list (list Q) -> list Q -> Q -> Z -> Train.partitions.
Variable fit : list (list Q) -> list Q -> LinearRegression.
Variable predict : LinearRegression -> list (list Q) -> list Q.
Variable mean_absolute_error : list Q -> list Q -> Q.

#[local] Abbreviation main :=
  (Train.main to_numeric train_test_split fit predict mean_absolute_error).
#[local] Abbreviation train_button :=
  (Dashboard.train_button to_numeric train_test_split fit predict mean_absolute_error).

#[local] Arguments Train.issubset : simpl never.
#[local] Arguments Train.coerce_columns : simpl never.
#[local] Arguments pd.dropna : simpl never.
#[local] Arguments Train.split : simpl never.
#[local] Arguments Nat.ltb : simpl never.

Lemma main_data_unchanged w :
  data_file (fst (main w)) = data_file w /\ data_dir (fst (main w)) = data_dir w.
Proof.
  destruct w as [dd [[|h body]|] md mf out]; try (split; reflexivity).
  unfold Train.main. run.
  destruct (Train.issubset _ _); simpl; [|split; reflexivity].
  destruct (Train.coerce_columns _ _ _) as [df1|]; [|split; reflexivity].
  destruct (pd.dropna _ _) as [df2|]; [|split; reflexivity].
  destruct (_ <? 5); split; reflexivity.
Qed.

(** X18.  The retrain action never raises and never writes the data
    file, the data directory or the dashboard's own console: the
    training process shares the file system only, and whatever it
    printed or raised stays in the captured result. *)
Theorem train_button_frame w :
  (exists ui, snd (train_button w) = Ret ui) /\
  data_file (fst (train_button w)) = data_file w /\
  data_dir (fst (train_button w)) = data_dir w /\
  stdout (fst (train_button w)) = stdout w.
Proof.
  unfold Dashboard.train_button, Dashboard.subprocess_run. run.
  pose proof (main_data_unchanged
                {| data_dir := data_dir w; data_file := data_file w;
                   model_dir := model_dir w; model_file := model_file w;
                   stdout := [] |}) as [Hf Hd].
  destruct (main _) as [w' r]. cbn in *. eauto.
Qed.

(** X19.  On a data file that passes the column validation and has at
    least five valid rows the retrain action does what its message
    says: the model is persisted, and the operator sees the success
    note with the three report lines of the training process. *)
Theorem train_button_success w h body :
  data_file w = Some (h :: body) ->
  Train.issubset Train.expected_columns h = true ->
  rectangular (h :: body) ->
  5 <= length (filter (fun r => valid_row to_numeric h r = true) body) ->
  exists model mae,
    train_button w
    = ({| data_dir := data_dir w; data_file := data_file w;
          model_dir := true; model_file := Some model;
          stdout := stdout w |},
       Ret [Dashboard.st_success "Model retrained successfully!";
            Dashboard.st_text [ModelTrainedAndSaved; MeanAbsoluteError mae;
                               BaselineNote];
            Dashboard.st_rerun]).
Proof.
  intros H Hsub Hrect Hn.
  unfold Dashboard.train_button, Dashboard.subprocess_run.
  unfold mbind, M_bind, mret, M_ret.
  rewrite (main_validated to_numeric train_test_split fit predict mean_absolute_error
             {| data_dir := data_dir w; data_file := data_file w;
                model_dir := model_dir w; model_file := model_file w;
                stdout := [] |} h body H Hsub Hrect).
  cbn zeta.
  replace (length (rows (cleaned to_numeric h body)) <? 5) with false.
  - eexists _, _. reflexivity.
  - symmetry. apply Nat.ltb_ge. unfold cleaned. cbn [rows].
    rewrite length_fmap. exact Hn.
Qed.

End RetrainRuns.

(** Five readings in a file with the training columns. *)
Lemma train_button_success_witness :
  exists model mae,
    Dashboard.train_button Sample.to_numeric Sample.train_test_split Sample.fit Sample.predict Sample.mean_absolute_error
      (Sample.with_file (Sample.training_file 5))
    = ({| data_dir := true; data_file := Some (Sample.training_file 5);
          model_dir := true; model_file := Some model; stdout := [] |},
       Ret [Dashboard.st_success "Model retrained successfully!";
            Dashboard.st_text [ModelTrainedAndSaved; MeanAbsoluteError mae;
                               BaselineNote];
            Dashboard.st_rerun]).
Proof.
  apply (train_button_success Sample.to_numeric Sample.train_test_split Sample.fit Sample.predict Sample.mean_absolute_error
           (Sample.with_file (Sample.training_file 5)) _ _
           eq_refl eq_refl (training_file_rectangular 5)).
  vm_compute. lia.
Defined.

Section GatewayToDashboard.

Variable utf8_decode : list Byte.byte -> option string.
Variable json_loads : string -> option pyval.
Variable to_datetime : list pyval -> res (list (option Z)).
Variable sort_rows : (list pyval -> Z) -> list (list pyval) -> list (list pyval).


End GatewayToDashboard.

